(** * Verification of the weather tool handlers (mcp_server/handlers.py)

    A shallow embedding of the date check, the fetch helper, the three tool
    functions and the dispatch table of [handlers.py], with the properties
    the specification states about them and further properties that the
    code shows.

    Python values that the program only passes along (query strings, flags,
    decoded JSON bodies) are values of [pyval].  The parameter dictionary is
    the one object the program mutates after sharing it ([fetch] stores the
    API key into the dictionary its caller built), so parameter dictionaries
    live in an object store and are passed by reference.  Coroutines run to
    completion in sequence: [await] is the bind of a state-and-exception
    monad over the store and a trace of the I/O events. *)

From Stdlib Require Import ZArith List Ascii String DecimalString Floats.SpecFloat.
From stdpp Require Import base list strings.

Set Default Proof Using "Type".
#[local] Set Warnings "-register-all".

(* ===================================================================== *)
(** ** Python values                                                      *)
(* ===================================================================== *)

(** The JSON-shaped fragment of Python's values.  An [int] is unbounded, a
    [float] is an IEEE double (its specification-level form), a [dict] built
    from JSON has string keys and keeps the order of insertion. *)
Inductive pyval : Type :=
| PNone
| PBool (b : bool)
| PInt (n : Z)
| PFloat (f : spec_float)
| PStr (s : string)
| PList (l : list pyval)
| PDict (d : list (string * pyval)).

(** A dictionary with string keys, in insertion order. *)
Definition pydict : Type := list (string * pyval).

(** [bool(v)]: what [if v], [not v], [a or b] and [x if v else y] test. *)
Definition truthy (v : pyval) : bool :=
  match v with
  | PNone => false
  | PBool b => b
  | PInt n => negb (Z.eqb n 0)
  | PFloat (S754_zero _) => false
  | PFloat _ => true
  | PStr EmptyString => false
  | PStr _ => true
  | PList [] => false
  | PList _ => true
  | PDict [] => false
  | PDict _ => true
  end.

(** [type(v).__name__], as interpreter messages print it. *)
Definition type_name (v : pyval) : string :=
  match v with
  | PNone => "NoneType"
  | PBool _ => "bool"
  | PInt _ => "int"
  | PFloat _ => "float"
  | PStr _ => "str"
  | PList _ => "list"
  | PDict _ => "dict"
  end.

(** [a or b] *)
Definition py_or (a b : pyval) : pyval := if truthy a then a else b.

Module Dict.

(** [d.get(k)] on the representation: the entry stored under [k]. *)
Fixpoint get (k : string) (d : pydict) : option pyval :=
  match d with
  | [] => None
  | (k', v) :: d' => if String.eqb k k' then Some v else get k d'
  end.

(** [d[k] = v]: an existing entry is overwritten where it stands, a new
    key goes to the end. *)
Fixpoint set (k : string) (v : pyval) (d : pydict) : pydict :=
  match d with
  | [] => [(k, v)]
  | (k', v') :: d' =>
      if String.eqb k k' then (k', v) :: d' else (k', v') :: set k v d'
  end.

Definition keys (d : pydict) : list string := map fst d.

(** The entries of [d] under keys other than [k], in their order. *)
Definition others (k : string) (d : pydict) : pydict :=
  List.filter (fun entry => negb (String.eqb k (fst entry))) d.

End Dict.

(* ===================================================================== *)
(** ** Exceptions                                                         *)
(* ===================================================================== *)

(** The exception classes the handlers raise, catch or let through.
    [RequestError] stands for [httpx.RequestError] and all its subclasses
    (connection failures, time-outs, failed name resolution);
    [CancelledError] derives from [BaseException] only, so that
    [except Exception] does not catch it. *)
Inductive exn_class : Type :=
| ValueError
| TypeError
| AttributeError
| RequestError
| OtherException (name : string)
| CancelledError.

(** An exception: its class and [str(e)]. *)
Record exn : Type := Exn { exn_class_of : exn_class; exn_msg : string }.

(** [isinstance(e, Exception)] *)
Definition is_Exception (e : exn) : bool :=
  match exn_class_of e with
  | CancelledError => false
  | _ => true
  end.

(** [isinstance(e, httpx.RequestError)] *)
Definition is_RequestError (e : exn) : bool :=
  match exn_class_of e with
  | RequestError => true
  | _ => false
  end.

(** [isinstance(e, ValueError)]; [json.JSONDecodeError] derives from
    [ValueError]. *)
Definition is_ValueError (e : exn) : bool :=
  match exn_class_of e with
  | ValueError => true
  | OtherException name => String.eqb name "JSONDecodeError"
  | _ => false
  end.

(** The outcome of an expression: a value or a raised exception. *)
Inductive result (A : Type) : Type :=
| Ret (a : A)
| Raise (e : exn).
Arguments Ret {A} a.
Arguments Raise {A} e.

(** [v.get(k, default)]: the dictionary method; any other value has no
    attribute [get]. *)
Definition py_get (v : pyval) (k : string) (default : pyval) : result pyval :=
  match v with
  | PDict d => Ret (from_option id default (Dict.get k d))
  | _ => Raise (Exn AttributeError
                  ("'" +:+ type_name v +:+ "' object has no attribute 'get'"))
  end.

(** The sign of [z - f] for a finite or infinite double [f], computed
    exactly as Python compares an [int] with a [float]; [None] for NaN. *)
Definition Z_compare_float (z : Z) (f : spec_float) : option comparison :=
  match f with
  | S754_nan => None
  | S754_zero _ => Some (Z.compare z 0)
  | S754_infinity false => Some Lt
  | S754_infinity true => Some Gt
  | S754_finite s m e =>
      let sm := if s then Z.neg m else Z.pos m in
      Some (if Z.leb 0 e
            then Z.compare z (sm * 2 ^ e)
            else Z.compare (z * 2 ^ (- e)) sm)
  end.

Definition unorderable (op : string) (v : pyval) : exn :=
  Exn TypeError ("'" +:+ op +:+ "' not supported between instances of '"
                 +:+ type_name v +:+ "' and 'int'").

(** [v < n] for an integer literal [n]. *)
Definition py_lt_int (v : pyval) (n : Z) : result bool :=
  match v with
  | PInt z => Ret (Z.ltb z n)
  | PBool b => Ret (Z.ltb (Z.b2z b) n)
  | PFloat f => Ret (match Z_compare_float n f with
                     | Some Gt => true
                     | _ => false
                     end)
  | _ => Raise (unorderable "<" v)
  end.

(** [v > n] for an integer literal [n]. *)
Definition py_gt_int (v : pyval) (n : Z) : result bool :=
  match v with
  | PInt z => Ret (Z.ltb n z)
  | PBool b => Ret (Z.ltb n (Z.b2z b))
  | PFloat f => Ret (match Z_compare_float n f with
                     | Some Lt => true
                     | _ => false
                     end)
  | _ => Raise (unorderable ">" v)
  end.

(** [s] occurs in [t]. *)
Definition contains (t s : string) : Prop :=
  exists pre post : string, t = pre +:+ s +:+ post.

(* ===================================================================== *)
(** ** The object store, the I/O trace and the monad of coroutines        *)
(* ===================================================================== *)

(** A reference to a dictionary of the store. *)
Definition loc : Type := nat.

(** What a run leaves behind, in order.  [EvFetch] is a ghost event: it
    records that [fetch] was entered, with the endpoint, the reference it
    was given and what the dictionary held at that moment.  The others are
    the I/O of the HTTP client: the client of [async with] being opened
    and released, and the GET request with the query parameters sent. *)
Inductive event : Type :=
| EvFetch (endpoint : string) (params : loc) (held : pydict)
| EvOpen
| EvGet (url : string) (sent : pydict)
| EvClose.

Record world : Type := World { heap : list pydict; trace : list event }.

(** An event of the HTTP client, as opposed to the ghost event. *)
Definition is_network (ev : event) : bool :=
  match ev with
  | EvFetch _ _ _ => false
  | _ => true
  end.

(** A computation: from a world to an outcome and a new world, or nowhere
    when it is handed a reference that the store does not hold (which no
    Python program can produce). *)
Definition M (A : Type) : Type := world -> option (result A * world).

#[global] Instance M_ret : MRet M := fun A a w => Some (Ret a, w).

#[global] Instance M_bind : MBind M := fun A B k m w =>
  match m w with
  | Some (Ret a, w') => k a w'
  | Some (Raise e, w') => Some (Raise e, w')
  | None => None
  end.

(** [raise e] *)
Definition raise {A : Type} (e : exn) : M A := fun w => Some (Raise e, w).

(** An expression that touches neither the store nor the network. *)
Definition lift {A : Type} (r : result A) : M A := fun w => Some (r, w).

(** One [except] clause: the class test and the handler. *)
Definition clause (A : Type) : Type := (exn -> bool) * (exn -> M A).

Fixpoint handle {A : Type} (cs : list (clause A)) (e : exn) : M A :=
  match cs with
  | [] => raise e
  | (test, handler) :: cs' => if test e then handler e else handle cs' e
  end.

(** [try: body except C1 as e: h1 except C2 as e: h2 ...]: the first clause
    whose class matches handles the exception; what a handler raises is not
    caught by the clauses after it. *)
Definition try_except {A : Type} (body : M A) (cs : list (clause A)) : M A :=
  fun w =>
    match body w with
    | Some (Raise e, w') => handle cs e w'
    | r => r
    end.

(** [try: body finally: cleanup], for a cleanup that does not raise. *)
Definition finally {A : Type} (body : M A) (cleanup : M unit) : M A :=
  fun w =>
    match body w with
    | Some (r, w') =>
        match cleanup w' with
        | Some (Ret _, w'') => Some (r, w'')
        | Some (Raise e, w'') => Some (Raise e, w'')
        | None => None
        end
    | None => None
    end.

Definition emit (ev : event) : M unit :=
  fun w => Some (Ret tt, World (heap w) (trace w ++ [ev])).

(** A dictionary display [{k1: v1, ...}]: a new object of the store. *)
Definition new_dict (d : pydict) : M loc :=
  fun w => Some (Ret (length (heap w)), World (heap w ++ [d]) (trace w)).

(** Reading the dictionary behind a reference. *)
Definition deref (l : loc) : M pydict :=
  fun w => match heap w !! l with
           | Some d => Some (Ret d, w)
           | None => None
           end.

(** [l[k] = v]: the object behind [l] is updated where it is. *)
Definition setitem (l : loc) (k : string) (v : pyval) : M unit :=
  fun w => match heap w !! l with
           | Some d => Some (Ret tt, World (<[l := Dict.set k v d]> (heap w)) (trace w))
           | None => None
           end.

(** [async with httpx.AsyncClient() as client: body].  Constructing the
    client and entering it comes first and may raise: [opening] is its
    outcome.  An exception there is raised where the statement stands, the
    body does not run and there is no client to release.  A client that
    was opened is released on every way out of the body. *)
Definition AsyncClient {A : Type} (opening : result unit) (body : M A) : M A :=
  lift opening;;
  emit EvOpen;;
  finally body (emit EvClose).

(** An HTTP response as the handlers use it: [resp.status_code],
    [resp.text] and the outcome of [resp.json()], [None] when decoding the
    body raises. *)
Record response : Type :=
  Response { status_code : Z; text : string; json : option pyval }.

Definition resp_json (resp : response) : M pyval :=
  match json resp with
  | Some v => mret v
  | None => raise (Exn (OtherException "JSONDecodeError") "Expecting value")
  end.

(* ===================================================================== *)
(** ** datetime.strptime with the format "%Y-%m-%d"                       *)
(* ===================================================================== *)

Module strptime.

(** A date as [datetime.strptime] returns it for this format (the time of
    day is midnight). *)
Record datetime : Type := Datetime { year : Z; month : Z; day : Z }.

(** The characters [0] to [9], which is what [\d] matches in a string of
    ASCII characters. *)
Definition digit (c : ascii) : option Z :=
  let n := nat_of_ascii c in
  if (48 <=? n)%nat && (n <=? 57)%nat then Some (Z.of_nat (n - 48)) else None.

Definition is_ascii (s : string) : bool :=
  forallb (fun c => (nat_of_ascii c <? 128)%nat) (list_ascii_of_string s).

(** A digit in the range from [lo] to [hi]: the character class [[lo-hi]]. *)
Definition digit_in (lo hi : Z) (c : ascii) : option Z :=
  match digit c with
  | Some n => if (lo <=? n)%Z && (n <=? hi)%Z then Some n else None
  | None => None
  end.

(** [(?P<Y>\d\d\d\d)]: the year and what follows it. *)
Definition match_Y (s : string) : option (Z * string) :=
  match s with
  | String a (String b (String c (String d rest))) =>
      match digit a, digit b, digit c, digit d with
      | Some a, Some b, Some c, Some d =>
          Some (1000 * a + 100 * b + 10 * c + d, rest)%Z
      | _, _, _, _ => None
      end
  | _ => None
  end.

(** The literal [-] of the format. *)
Definition match_dash (s : string) : option string :=
  match s with
  | String "-" rest => Some rest
  | _ => None
  end.

(** One alternative made of a first character class and a second. *)
Definition two_digits (lo1 hi1 lo2 hi2 : Z) (s : string) : list (Z * string) :=
  match s with
  | String a (String b rest) =>
      match digit_in lo1 hi1 a, digit_in lo2 hi2 b with
      | Some a, Some b => [((10 * a + b)%Z, rest)]
      | _, _ => []
      end
  | _ => []
  end.

(** One alternative made of a single character class. *)
Definition one_digit (lo hi : Z) (s : string) : list (Z * string) :=
  match s with
  | String a rest =>
      match digit_in lo hi a with
      | Some a => [(a, rest)]
      | None => []
      end
  | _ => []
  end.

(** [(?P<m>1[0-2]|0[1-9]|[1-9])]: the ways the group matches at the start
    of [s], in the order in which the regex engine tries them. *)
Definition match_m (s : string) : list (Z * string) :=
  two_digits 1 1 0 2 s ++ two_digits 0 0 1 9 s ++ one_digit 1 9 s.

(** [(?P<d>3[0-1]|[1-2]\d|0[1-9]|[1-9]| [1-9])] *)
Definition match_d (s : string) : list (Z * string) :=
  two_digits 3 3 0 1 s ++ two_digits 1 2 0 9 s ++ two_digits 0 0 1 9 s
  ++ one_digit 1 9 s
  ++ match s with
     | String " " rest => one_digit 1 9 rest
     | _ => []
     end.

(** The first of the candidates on which the rest of the pattern matches:
    the engine backtracks into the next alternative when it does not. *)
Fixpoint first_match {A B : Type} (rest_of_pattern : A -> option B)
    (candidates : list A) : option B :=
  match candidates with
  | [] => None
  | c :: cs =>
      match rest_of_pattern c with
      | Some b => Some b
      | None => first_match rest_of_pattern cs
      end
  end.

(** [format_regex.match(data_string)]: the groups and the text that the
    match leaves over. *)
Definition regex_match (s : string) : option (Z * Z * Z * string) :=
  match match_Y s with
  | Some (y, s1) =>
      match match_dash s1 with
      | Some s2 =>
          first_match
            (fun '(m, s3) =>
               match match_dash s3 with
               | Some s4 =>
                   first_match (fun '(d, s5) => Some (y, m, d, s5)) (match_d s4)
               | None => None
               end)
            (match_m s2)
      | None => None
      end
  | None => None
  end.

Definition is_leap (y : Z) : bool :=
  ((y mod 4 =? 0) && (negb (y mod 100 =? 0) || (y mod 400 =? 0)))%Z.

Definition days_in_month (y m : Z) : Z :=
  if (m =? 2)%Z then (if is_leap y then 29 else 28)%Z
  else if ((m =? 4) || (m =? 6) || (m =? 9) || (m =? 11))%Z then 30%Z
  else 31%Z.

(** Why [strptime] refuses a string. *)
Inductive refusal : Type :=
| NoMatch
| Unconverted (rest : string)
| YearOutOfRange (y : Z)
| DayOutOfRange.

(** [datetime.strptime(s, "%Y-%m-%d")] on a string of ASCII characters:
    the date, or the reason of the [ValueError]. *)
Definition parse (s : string) : datetime + refusal :=
  match regex_match s with
  | None => inr NoMatch
  | Some (y, m, d, rest) =>
      match rest with
      | String _ _ => inr (Unconverted rest)
      | EmptyString =>
          if (y <? 1)%Z then inr (YearOutOfRange y)
          else if (d <=? days_in_month y m)%Z then inl (Datetime y m d)
          else inr DayOutOfRange
      end
  end.

End strptime.

(* ===================================================================== *)
(** ** handlers.py                                                        *)
(* ===================================================================== *)

Module handlers.

(** The function objects that [handlers.py] defines as tools. *)
Inductive tool_function : Type :=
| Fn_get_current_weather
| Fn_get_weather_forecast
| Fn_search_locations.

(** The name of a function and the names of its parameters; [query] is
    the one parameter without a default in each. *)
Definition signature (f : tool_function) : string * list string :=
  match f with
  | Fn_get_current_weather =>
      ("get_current_weather", ["query"; "include_air_quality"])
  | Fn_get_weather_forecast =>
      ("get_weather_forecast",
       ["query"; "days"; "include_air_quality"; "include_alerts"])
  | Fn_search_locations => ("search_locations", ["query"])
  end.

(** The base URL that [fetch] puts before the endpoint. *)
Definition base_url : string := "https://api.weatherapi.com/v1/".

Section Handlers.

(** The process environment after [load_dotenv()]: [os.getenv]. *)
Variable environ : string -> option string.

(** The network: what [client.get(url, params=...)] comes back with, a
    response or an exception raised by the transport. *)
Variable http_get : string -> pydict -> result response.

(** [repr] of the values whose text the interpreter computes (floats and
    containers). *)
Variable py_repr : pyval -> string.

(** What [httpx.AsyncClient()] and entering the client come to in this
    process: the client, or an exception.  The constructor reads the proxy
    settings of the environment and raises on them: a [ValueError] for a
    proxy URL with an unknown scheme, an [ImportError] for a SOCKS proxy
    when the package for it is not installed. *)
Variable open_client : result unit.

(** [str(v)], as an f-string formats a value. *)
Definition py_str (v : pyval) : string :=
  match v with
  | PStr s => s
  | PNone => "None"
  | PBool true => "True"
  | PBool false => "False"
  | PInt n => NilZero.string_of_int (Z.to_int n)
  | _ => py_repr v
  end.

(** [WEATHER_API_KEY = os.getenv("WEATHER_API_KEY")] *)
Definition WEATHER_API_KEY : pyval :=
  from_option PStr PNone (environ "WEATHER_API_KEY").

(** The text of the [ValueError] of [datetime.strptime], as CPython 3.11
    words it; [validate_date] drops it. *)
Definition refusal_message (s : string) (why : strptime.refusal) : string :=
  match why with
  | strptime.NoMatch =>
      "time data " +:+ py_repr (PStr s) +:+ " does not match format '%Y-%m-%d'"
  | strptime.Unconverted rest => "unconverted data remains: " +:+ rest
  | strptime.YearOutOfRange y => "year " +:+ py_str (PInt y) +:+ " is out of range"
  | strptime.DayOutOfRange => "day is out of range for month"
  end.

(** [datetime.strptime(dt_str, "%Y-%m-%d")].  A string with characters
    outside of ASCII is outside of this model (there [\d] also matches the
    digits of other scripts); anything that is not a string is refused
    with a [TypeError]. *)
Definition datetime_strptime (dt_str : pyval) : M strptime.datetime :=
  match dt_str with
  | PStr s =>
      if strptime.is_ascii s
      then match strptime.parse s with
           | inl dt => mret dt
           | inr why => raise (Exn ValueError (refusal_message s why))
           end
      else fun _ => None
  | _ =>
      raise (Exn TypeError
               ("strptime() argument 1 must be str, not "
                +:+ match dt_str with
                    | PNone => "None"
                    | _ => type_name dt_str
                    end))
  end.

(** [def validate_date(dt_str: str) -> None] *)
Definition validate_date (dt_str : pyval) : M pyval :=
  try_except
    (datetime_strptime dt_str;; mret PNone)
    [(is_ValueError,
       fun _ => raise (Exn ValueError
                         ("Invalid date: " +:+ py_str dt_str
                          +:+ ". Use YYYY-MM-DD.")))].

(** [await client.get(url, params=params)] *)
Definition client_get (url : string) (params : loc) : M response :=
  sent ← deref params;
  emit (EvGet url sent);;
  lift (http_get url sent).

(** [async def fetch(endpoint: str, params: dict) -> dict] *)
Definition fetch (endpoint : string) (params : loc) : M pyval :=
  held ← deref params;
  emit (EvFetch endpoint params held);;
  if negb (truthy WEATHER_API_KEY)
  then raise (Exn ValueError "Weather API key not set.")
  else
    setitem params "key" WEATHER_API_KEY;;
    let url := base_url +:+ endpoint in
    AsyncClient open_client
      (try_except
         (resp ← client_get url params;
          data ← try_except (resp_json resp)
                   [(is_Exception, fun _ => mret PNone)];
          if negb (Z.eqb (status_code resp) 200)
          then
            error ← lift (py_get (py_or data (PDict [])) "error" (PDict []));
            detail ← lift (py_get error "message" (PStr (text resp)));
            raise (Exn ValueError ("WeatherAPI error: " +:+ py_str detail))
          else mret data)
         [(is_RequestError,
            fun e => raise (Exn ValueError ("Request error: " +:+ exn_msg e)));
          (is_Exception,
            fun e => raise (Exn ValueError ("Unexpected error: " +:+ exn_msg e)))]).

(** ["yes" if flag else "no"] *)
Definition yes_no (flag : pyval) : pyval :=
  PStr (if truthy flag then "yes" else "no").

Definition query_required : exn :=
  Exn ValueError "query with location is required.".

(** [async def get_current_weather(query: str,
                                   include_air_quality: bool = False)];
    an argument left out is [None] here and takes its default. *)
Definition get_current_weather
    (query : pyval) (include_air_quality : option pyval) : M pyval :=
  let include_air_quality := default (PBool false) include_air_quality in
  if negb (truthy query) then raise query_required
  else
    params ← new_dict [("q", query); ("aqi", yes_no include_air_quality)];
    fetch "current.json" params.

(** [async def get_weather_forecast(query: str, days: int = 1,
       include_air_quality: bool = False, include_alerts: bool = False)] *)
Definition get_weather_forecast
    (query : pyval) (days include_air_quality include_alerts : option pyval)
    : M pyval :=
  let days := default (PInt 1) days in
  let include_air_quality := default (PBool false) include_air_quality in
  let include_alerts := default (PBool false) include_alerts in
  if negb (truthy query) then raise query_required
  else
    below ← lift (py_lt_int days 1);
    outside ← (if below : bool then mret true else lift (py_gt_int days 3));
    if outside : bool
    then raise (Exn ValueError "'days' must be between 1 and 3.")
    else
      params ← new_dict [("q", query);
                          ("days", days);
                          ("aqi", yes_no include_air_quality);
                          ("alerts", yes_no include_alerts)];
      fetch "forecast.json" params.

(** [async def search_locations(query: str) -> dict] *)
Definition search_locations (query : pyval) : M pyval :=
  if negb (truthy query) then raise query_required
  else
    params ← new_dict [("q", query)];
    locations ← fetch "search.json" params;
    mret (PDict [("items", locations)]).

(** Awaiting [f] called with the keyword arguments [kwargs]: the
    interpreter binds the keyword arguments to the parameters, and refuses
    the call when a keyword names no parameter or [query] is not given;
    then the body runs. *)
Definition call (f : tool_function) (kwargs : pydict) : M pyval :=
  let (name, parameters) := signature f in
  match find (fun k => negb (bool_decide (k ∈ parameters))) (Dict.keys kwargs) with
  | Some k =>
      raise (Exn TypeError
               (name +:+ "() got an unexpected keyword argument '" +:+ k +:+ "'"))
  | None =>
      match Dict.get "query" kwargs with
      | None =>
          raise (Exn TypeError
                   (name +:+ "() missing 1 required positional argument: 'query'"))
      | Some query =>
          match f with
          | Fn_get_current_weather =>
              get_current_weather query (Dict.get "include_air_quality" kwargs)
          | Fn_get_weather_forecast =>
              get_weather_forecast query
                (Dict.get "days" kwargs)
                (Dict.get "include_air_quality" kwargs)
                (Dict.get "include_alerts" kwargs)
          | Fn_search_locations => search_locations query
          end
      end
  end.

End Handlers.

(** [TOOL_FUNCTIONS = {"get_weather": get_weather_forecast,
                       "search_locations": search_locations}] *)
Definition TOOL_FUNCTIONS : list (string * tool_function) :=
  [("get_weather", Fn_get_weather_forecast);
   ("search_locations", Fn_search_locations)].

(** [TOOL_FUNCTIONS.get(name)] *)
Definition lookup_tool (name : string) : option tool_function :=
  snd <$> find (fun entry => String.eqb name (fst entry)) TOOL_FUNCTIONS.

End handlers.

Import handlers.

(* ===================================================================== *)
(** ** The vocabulary of the properties                                   *)
(* ===================================================================== *)

(** What [fetch] makes of the outcome of its GET request, once the request
    is out: the decoded body of a 200 response, and otherwise a
    [ValueError] whose message depends on how the request failed. *)
Section Outcome.

Variable py_repr : pyval -> string.

(** [data]: the decoded body, [None] when it does not decode. *)
Definition data_of (resp : response) : pyval := default PNone (json resp).

(** [(data or {}).get("error", {}).get("message", resp.text)] *)
Definition detail_of (resp : response) : result pyval :=
  match py_get (py_or (data_of resp) (PDict [])) "error" (PDict []) with
  | Ret error => py_get error "message" (PStr (text resp))
  | Raise e => Raise e
  end.

Definition unexpected (msg : string) : exn :=
  Exn ValueError ("Unexpected error: " +:+ msg).

(** The two [except] clauses around the request, as a function on the
    exception that reaches them. *)
Definition rewrap (e : exn) : exn :=
  if is_RequestError e then Exn ValueError ("Request error: " +:+ exn_msg e)
  else if is_Exception e then unexpected (exn_msg e)
  else e.

Definition fetch_outcome (got : result response) : result pyval :=
  match got with
  | Ret resp =>
      if Z.eqb (status_code resp) 200 then Ret (data_of resp)
      else match detail_of resp with
           | Ret detail =>
               Raise (rewrap (Exn ValueError
                                ("WeatherAPI error: " +:+ py_str py_repr detail)))
           | Raise e => Raise (rewrap e)
           end
  | Raise e => Raise (rewrap e)
  end.

End Outcome.

(** The world after a dictionary display was evaluated in [w]. *)
Definition with_dict (w : world) (d : pydict) : world :=
  World (heap w ++ [d]) (trace w).

(** ["yes"] for a flag given as [True], ["no"] for one given as [False] or
    left out: the text the specification asks for. *)
Definition flag_text (flag : option bool) : string :=
  match flag with
  | Some true => "yes"
  | _ => "no"
  end.

(** Running [m] in [w] enters [fetch] with [endpoint] and a new dictionary
    holding [d] before anything else happens. *)
Definition enters_fetch (endpoint : string) (d : pydict) (w : world)
    (out : option (result pyval * world)) : Prop :=
  exists r w' rest,
    out = Some (r, w')
    /\ trace w' = trace w ++ EvFetch endpoint (length (heap w)) d :: rest.

(** What the HTTP client did during a run that left [w]. *)
Definition network_events (w : world) : list event :=
  List.filter is_network (trace w).

Definition key_not_set : exn := Exn ValueError "Weather API key not set.".

Definition days_out_of_range : exn :=
  Exn ValueError "'days' must be between 1 and 3.".

(** The upstream error detail field of a response, [body["error"]["message"]],
    when the decoded body has one. *)
Definition detail_field (resp : response) : option pyval :=
  match json resp with
  | Some (PDict body) =>
      match Dict.get "error" body with
      | Some (PDict error) => Dict.get "message" error
      | _ => None
      end
  | _ => None
  end.

(** The decoded body is one in which a detail field can be looked for:
    there is none or it is falsy, or it is a mapping whose ["error"] entry,
    when it has one, is a mapping. *)
Definition walkable (resp : response) : bool :=
  match json resp with
  | None => true
  | Some data =>
      if truthy data
      then match data with
           | PDict body =>
               match Dict.get "error" body with
               | None | Some (PDict _) => true
               | Some _ => false
               end
           | _ => false
           end
      else true
  end.

(** The outcome is a failure whose message contains [s]. *)
Definition fails_mentioning (s : string) (out : option (result pyval * world)) : Prop :=
  exists msg w', out = Some (Raise (Exn ValueError msg), w') /\ contains msg s.

(** The range check of [get_weather_forecast], [days < 1 or days > 3]:
    whether the day count is outside the range, or the exception of the
    comparison. *)
Definition days_outside (days : pyval) : result bool :=
  match py_lt_int days 1 with
  | Ret true => Ret true
  | Ret false => py_gt_int days 3
  | Raise e => Raise e
  end.

(** An [int], a [bool] or a [float]: what can be compared with an [int]. *)
Definition is_number (v : pyval) : bool :=
  match v with
  | PInt _ | PBool _ | PFloat _ => true
  | _ => false
  end.

(** Between [w] and [w'] the HTTP client did nothing, or it was opened,
    sent one GET request to [url] and was released; the request carried the
    configured key and the query [q], both truthy. *)
Definition at_most_one_request (key : pyval) (url : string) (q : pyval)
    (w w' : world) : Prop :=
  network_events w' = network_events w
  \/ exists sent,
      network_events w' = network_events w ++ [EvOpen; EvGet url sent; EvClose]
      /\ Dict.get "key" sent = Some key
      /\ Dict.get "q" sent = Some q
      /\ truthy key = true
      /\ truthy q = true.

(** [w'] holds the objects of [w] as they were, and at most one more. *)
Definition extends_store (w w' : world) : Prop :=
  exists new, heap w' = heap w ++ new /\ (length new <= 1)%nat.

(** The character of a digit, and numbers written with one digit, with
    two and with four. *)
Definition digit_char (n : Z) : ascii := ascii_of_nat (48 + Z.to_nat n).

Definition digit1 (n : Z) : string := String (digit_char n) EmptyString.

Definition pad2 (n : Z) : string :=
  String (digit_char (n / 10)) (digit1 (n mod 10)).

Definition pad4 (n : Z) : string :=
  String (digit_char (n / 1000))
    (String (digit_char (n / 100 mod 10)) (pad2 (n mod 100))).

(** A date written as YYYY-MM-DD. *)
Definition iso_date (y m d : Z) : string :=
  pad4 y +:+ "-" +:+ pad2 m +:+ "-" +:+ pad2 d.

(** A date of the calendar, from the year 1 to the year 9999. *)
Definition valid_date (y m d : Z) : Prop :=
  (1 <= y <= 9999 /\ 1 <= m <= 12 /\ 1 <= d <= strptime.days_in_month y m)%Z.

(** The ways of writing a month and a day that [validate_date] takes: with
    two digits, and below 10 also with one digit, and for a day with a
    space in place of the zero. *)
Definition month_forms (m : Z) : list string :=
  pad2 m :: (if (m <? 10)%Z then [digit1 m] else []).

Definition day_forms (d : Z) : list string :=
  pad2 d :: (if (d <? 10)%Z then [digit1 d; " " +:+ digit1 d] else []).

(** The strings that are a valid date in one of these writings. *)
Definition accepted_date (s : string) : Prop :=
  exists y m d mf df,
    valid_date y m d
    /\ In mf (month_forms m)
    /\ In df (day_forms d)
    /\ s = pad4 y +:+ "-" +:+ mf +:+ "-" +:+ df.

Definition invalid_date (s : string) : exn :=
  Exn ValueError ("Invalid date: " +:+ s +:+ ". Use YYYY-MM-DD.").

(** The rest of the pattern after the month: the dash, and then [k]. *)
Definition then_dash {B : Type} (k : Z -> string -> option B)
    : Z * string -> option B :=
  fun '(m, s3) =>
    match strptime.match_dash s3 with
    | Some s4 => k m s4
    | None => None
    end.

(** The end of the pattern: the groups and what is left of the string. *)
Definition found {B : Type} (f : Z -> string -> B) : Z * string -> option B :=
  fun '(d, s5) => Some (f d s5).


(** What [async with httpx.AsyncClient()] comes to around a body whose
    outcome is [got]: that outcome when the client opens, and otherwise the
    exception of the constructor. *)
Definition through_client {A : Type} (opening : result unit) (got : result A)
    : result A :=
  match opening with
  | Ret _ => got
  | Raise e => Raise e
  end.

(** What the HTTP client does in one call of [fetch] that has a key: it
    is opened, sends one GET request and is released; nothing when it does
    not open. *)
Definition client_events (opening : result unit) (url : string) (sent : pydict)
    : list event :=
  match opening with
  | Ret _ => [EvOpen; EvGet url sent; EvClose]
  | Raise _ => []
  end.

Module Examples.

Definition dq : string := String (ascii_of_nat 34) EmptyString.

Definition environ_with_key (name : string) : option string :=
  if String.eqb name "WEATHER_API_KEY" then Some "s3cr3t" else None.

Definition environ_without_key (name : string) : option string := None.

Definition environ_empty_key (name : string) : option string :=
  if String.eqb name "WEATHER_API_KEY" then Some EmptyString else None.

Definition repr (v : pyval) : string := "<repr>".

(** [{"error":{"message":"Invalid key"}}] with status 403 *)
Definition invalid_key : response :=
  Response 403
    ("{" +:+ dq +:+ "error" +:+ dq +:+ ":{" +:+ dq +:+ "message" +:+ dq +:+ ":"
     +:+ dq +:+ "Invalid key" +:+ dq +:+ "}}")
    (Some (PDict [("error", PDict [("message", PStr "Invalid key")])])).

(** A gateway page that is not JSON, with status 502 *)
Definition bad_gateway : response :=
  Response 502 "<html>Bad Gateway</html>" None.

(** [{"error":"Forbidden"}] with status 403 *)
Definition forbidden : response :=
  Response 403
    ("{" +:+ dq +:+ "error" +:+ dq +:+ ":" +:+ dq +:+ "Forbidden" +:+ dq +:+ "}")
    (Some (PDict [("error", PStr "Forbidden")])).

(** [[]] with status 403 *)
Definition empty_list : response := Response 403 "[]" (Some (PList [])).

(** [[1]] with status 403 *)
Definition one_item : response := Response 403 "[1]" (Some (PList [PInt 1])).

(** A page that is not JSON, with status 200 *)
Definition html_page : response := Response 200 "<html>ok</html>" None.

(** [[{"id":1,"name":"Tokyo"}]] with status 200 *)
Definition tokyo_found : response :=
  Response 200
    ("[{" +:+ dq +:+ "id" +:+ dq +:+ ":1," +:+ dq +:+ "name" +:+ dq +:+ ":"
     +:+ dq +:+ "Tokyo" +:+ dq +:+ "}]")
    (Some (PList [PDict [("id", PInt 1); ("name", PStr "Tokyo")]])).

Definition answers (resp : response) (url : string) (sent : pydict)
    : result response := Ret resp.

Definition times_out (url : string) (sent : pydict) : result response :=
  Raise (Exn RequestError "timed out").

(** A client that opens. *)
Definition opens : result unit := Ret tt.

(** An environment that names a SOCKS proxy, without the package for it:
    the constructor of the client raises. *)
Definition no_socks : exn :=
  Exn (OtherException "ImportError")
    ("Using SOCKS proxy, but the 'socksio' package is not installed. "
     +:+ "Make sure to install httpx using `pip install httpx[socks]`.").

Definition socks_refused : result unit := Raise no_socks.

Definition nothing : world := World [] [].

(** A caller of [fetch] holding its own dictionary at reference 0. *)
Definition paris : pydict := [("q", PStr "Paris"); ("aqi", PStr "no")].
Definition holding_paris : world := World [paris] [].

End Examples.

(* ===================================================================== *)
(** ** Messages                                                           *)
(* ===================================================================== *)

Module StringFacts.

Lemma append_cons (c : ascii) (s t : string) :
  String c s +:+ t = String c (s +:+ t).
Proof. reflexivity. Qed.

Lemma append_empty_r (s : string) : s +:+ EmptyString = s.
Proof.
  induction s as [| c s IH]; [reflexivity |].
  now rewrite append_cons, IH.
Qed.

Lemma chars_append (s t : string) :
  list_ascii_of_string (s +:+ t)
  = list_ascii_of_string s ++ list_ascii_of_string t.
Proof.
  induction s as [| c s IH]; [reflexivity |].
  rewrite append_cons. cbn. now rewrite IH.
Qed.

Lemma contains_suffix (pre s : string) : contains (pre +:+ s) s.
Proof. exists pre, EmptyString. now rewrite append_empty_r. Qed.

(** Every character of a string occurs in the strings that contain it. *)
Lemma contains_chars (t s : string) (c : ascii) :
  contains t s ->
  In c (list_ascii_of_string s) -> In c (list_ascii_of_string t).
Proof.
  intros (pre & post & ->) Hc.
  rewrite !chars_append, !in_app_iff. tauto.
Qed.

End StringFacts.

(* ===================================================================== *)
(** ** Dictionaries                                                       *)
(* ===================================================================== *)

Module DictFacts.

Lemma get_set_eq (k : string) (v : pyval) (d : pydict) :
  Dict.get k (Dict.set k v d) = Some v.
Proof.
  induction d as [| [k' v'] d IH]; cbn.
  - now rewrite String.eqb_refl.
  - destruct (String.eqb k k') eqn:E; cbn; rewrite E; [reflexivity | exact IH].
Qed.

Lemma get_set_ne (k k' : string) (v : pyval) (d : pydict) :
  k <> k' -> Dict.get k' (Dict.set k v d) = Dict.get k' d.
Proof.
  intros Hne. induction d as [| [k0 v0] d IH]; cbn.
  - destruct (String.eqb k' k) eqn:E; [| reflexivity].
    apply String.eqb_eq in E. congruence.
  - destruct (String.eqb k k0) eqn:E; cbn.
    + apply String.eqb_eq in E. subst k0.
      destruct (String.eqb k' k) eqn:E'; [| reflexivity].
      apply String.eqb_eq in E'. congruence.
    + now rewrite IH.
Qed.

Lemma others_set (k : string) (v : pyval) (d : pydict) :
  Dict.others k (Dict.set k v d) = Dict.others k d.
Proof.
  induction d as [| [k0 v0] d IH]; cbn.
  - now rewrite String.eqb_refl.
  - destruct (String.eqb k k0) eqn:E; cbn; rewrite E; cbn.
    + reflexivity.
    + now f_equal.
Qed.

(** Storing under a key that is not there yet puts the entry last. *)
Lemma set_new (k : string) (v : pyval) (d : pydict) :
  Dict.get k d = None -> Dict.set k v d = d ++ [(k, v)].
Proof.
  induction d as [| [k0 v0] d IH]; cbn; [reflexivity |].
  destruct (String.eqb k k0); [discriminate |].
  intros H. now rewrite IH.
Qed.

End DictFacts.

(* ===================================================================== *)
(** ** The fetch helper, step by step                                     *)
(* ===================================================================== *)

Section FetchFacts.

Variable environ : string -> option string.
Variable http_get : string -> pydict -> result response.
Variable py_repr : pyval -> string.
Variable open_client : result unit.

Abbreviation KEY := (WEATHER_API_KEY environ).
Abbreviation fetch := (fetch environ http_get py_repr open_client).

(** Without a key [fetch] stops at its first statement. *)
Lemma fetch_without_key (endpoint : string) (params : loc) (held : pydict) (w : world) :
  heap w !! params = Some held ->
  truthy KEY = false ->
  fetch endpoint params w
  = Some (Raise (Exn ValueError "Weather API key not set."),
          World (heap w) (trace w ++ [EvFetch endpoint params held])).
Proof.
  intros Hheld Hkey.
  unfold handlers.fetch, mbind, M_bind, deref, emit.
  rewrite Hheld. cbn. rewrite Hkey. reflexivity.
Qed.

(** With a key, [fetch] stores it in the caller's dictionary and then
    asks for the client.  When the client opens, it sends one GET request
    with the dictionary as it then is, the client is released, and [fetch]
    turns the outcome of the request into its own. *)
Lemma fetch_with_key (endpoint : string) (params : loc) (held : pydict) (w : world) :
  open_client = Ret tt ->
  heap w !! params = Some held ->
  truthy KEY = true ->
  let sent := Dict.set "key" KEY held in
  fetch endpoint params w
  = Some (fetch_outcome py_repr (http_get (base_url +:+ endpoint) sent),
          World (<[params := sent]> (heap w))
                (trace w ++ [EvFetch endpoint params held; EvOpen;
                             EvGet (base_url +:+ endpoint) sent; EvClose])).
Proof.
  intros Hopen Hheld Hkey sent.
  assert (Hlt : params < length (heap w)) by (eapply lookup_lt_Some; eassumption).
  unfold handlers.fetch, mbind, M_bind, deref, emit.
  rewrite Hheld. cbn. rewrite Hkey. cbn.
  unfold setitem. cbn. rewrite Hheld.
  unfold AsyncClient, mbind, M_bind, emit, finally, try_except, client_get,
    mbind, M_bind, deref, emit, lift. rewrite Hopen. cbn.
  rewrite list_lookup_insert_eq by assumption.
  fold sent.
  repeat rewrite <- app_assoc. cbn.
  unfold fetch_outcome, detail_of, data_of, resp_json, rewrap, unexpected.
  destruct (http_get (base_url +:+ endpoint) sent) as [resp | e]; cbn.
  - destruct (json resp) as [v |]; cbn;
      destruct (Z.eqb (status_code resp) 200); cbn;
      try (destruct (py_get (py_or v (PDict [])) "error" (PDict [])) as [err | e];
           cbn;
           [destruct (py_get err "message" (PStr (text resp))) as [d | e]; cbn |];
           try (destruct (is_RequestError e), (is_Exception e); cbn));
      repeat rewrite <- app_assoc; reflexivity.
  - destruct (is_RequestError e), (is_Exception e); cbn;
      repeat rewrite <- app_assoc; reflexivity.
Qed.

(** With a key and a client that does not open, the exception of the
    constructor leaves [fetch] as it is: the key is in the caller's
    dictionary by then, and the HTTP client has done nothing. *)
Lemma fetch_client_refused
    (endpoint : string) (params : loc) (held : pydict) (w : world) (e : exn) :
  open_client = Raise e ->
  heap w !! params = Some held ->
  truthy KEY = true ->
  fetch endpoint params w
  = Some (Raise e,
          World (<[params := Dict.set "key" KEY held]> (heap w))
                (trace w ++ [EvFetch endpoint params held])).
Proof.
  intros Hopen Hheld Hkey.
  unfold handlers.fetch, mbind, M_bind, deref, emit.
  rewrite Hheld. cbn. rewrite Hkey. cbn.
  unfold setitem. cbn. rewrite Hheld.
  unfold AsyncClient, mbind, M_bind, lift. rewrite Hopen. reflexivity.
Qed.

(** Both cases at once. *)
Lemma fetch_keyed (endpoint : string) (params : loc) (held : pydict) (w : world) :
  heap w !! params = Some held ->
  truthy KEY = true ->
  let sent := Dict.set "key" KEY held in
  fetch endpoint params w
  = Some (through_client open_client
            (fetch_outcome py_repr (http_get (base_url +:+ endpoint) sent)),
          World (<[params := sent]> (heap w))
                (trace w ++ EvFetch endpoint params held
                            :: client_events open_client (base_url +:+ endpoint) sent)).
Proof.
  intros Hheld Hkey sent.
  pose proof (fetch_with_key endpoint params held w) as Hopens.
  pose proof (fetch_client_refused endpoint params held w) as Hrefused.
  destruct open_client as [[] | e].
  - exact (Hopens eq_refl Hheld Hkey).
  - exact (Hrefused e eq_refl Hheld Hkey).
Qed.

End FetchFacts.

(* ===================================================================== *)
(** ** The tool functions, step by step                                   *)
(* ===================================================================== *)

Lemma with_dict_lookup (w : world) (d : pydict) :
  heap (with_dict w d) !! length (heap w) = Some d.
Proof. cbn. apply list_lookup_middle. reflexivity. Qed.

Section ToolFacts.

Variable environ : string -> option string.
Variable http_get : string -> pydict -> result response.
Variable py_repr : pyval -> string.
Variable open_client : result unit.

Abbreviation fetch := (fetch environ http_get py_repr open_client).
Abbreviation get_current_weather :=
  (get_current_weather environ http_get py_repr open_client).
Abbreviation get_weather_forecast :=
  (get_weather_forecast environ http_get py_repr open_client).
Abbreviation search_locations :=
  (search_locations environ http_get py_repr open_client).

Lemma yes_no_flag (flag : option bool) :
  yes_no (default (PBool false) (PBool <$> flag)) = PStr (flag_text flag).
Proof. destruct flag as [[|] |]; reflexivity. Qed.

Lemma get_current_weather_run (query : pyval) (aqi : option pyval) (w : world) :
  truthy query = true ->
  get_current_weather query aqi w
  = fetch "current.json" (length (heap w))
      (with_dict w [("q", query); ("aqi", yes_no (default (PBool false) aqi))]).
Proof.
  intros Hq. unfold handlers.get_current_weather. rewrite Hq. reflexivity.
Qed.

Lemma get_weather_forecast_run
    (query : pyval) (days : option Z) (aqi alerts : option pyval) (w : world) :
  truthy query = true ->
  (1 <= default 1 days <= 3)%Z ->
  get_weather_forecast query (PInt <$> days) aqi alerts w
  = fetch "forecast.json" (length (heap w))
      (with_dict w [("q", query);
                    ("days", PInt (default 1%Z days));
                    ("aqi", yes_no (default (PBool false) aqi));
                    ("alerts", yes_no (default (PBool false) alerts))]).
Proof.
  intros Hq Hn. unfold handlers.get_weather_forecast. rewrite Hq.
  replace (default (PInt 1) (PInt <$> days)) with (PInt (default 1%Z days))
    by (destruct days; reflexivity).
  cbn. unfold mbind, M_bind, lift. cbn.
  destruct (Z.ltb_spec (default 1%Z days) 1) as [? | _]; [lia |]. cbn.
  destruct (Z.ltb_spec 3 (default 1%Z days)) as [? | _]; [lia |]. reflexivity.
Qed.

Lemma get_weather_forecast_out_of_range
    (query : pyval) (n : Z) (aqi alerts : option pyval) (w : world) :
  truthy query = true ->
  (n < 1 \/ 3 < n)%Z ->
  get_weather_forecast query (Some (PInt n)) aqi alerts w
  = Some (Raise (Exn ValueError "'days' must be between 1 and 3."), w).
Proof.
  intros Hq Hn. unfold handlers.get_weather_forecast. rewrite Hq. cbn.
  unfold mbind, M_bind, lift. cbn.
  destruct (Z.ltb_spec n 1) as [? | ?]; cbn; [reflexivity |].
  destruct (Z.ltb_spec 3 n) as [? | ?]; [reflexivity | lia].
Qed.

Lemma search_locations_run (query : pyval) (w : world) :
  truthy query = true ->
  search_locations query w
  = match fetch "search.json" (length (heap w)) (with_dict w [("q", query)]) with
    | Some (Ret locations, w') => Some (Ret (PDict [("items", locations)]), w')
    | other => other
    end.
Proof.
  intros Hq. unfold handlers.search_locations. rewrite Hq. cbn.
  unfold mbind, M_bind at 1. cbn. fold (with_dict w [("q", query)]).
  unfold mbind, M_bind.
  destruct (fetch _ _ _) as [[[v | e] w'] |]; reflexivity.
Qed.

End ToolFacts.

(* ===================================================================== *)
(** ** Four runs                                                          *)
(* ===================================================================== *)

(** A search that the upstream answers: the store and the trace it leaves. *)
Example search_tokyo_run :
  search_locations Examples.environ_with_key (Examples.answers Examples.tokyo_found)
    Examples.repr Examples.opens (PStr "Tokyo") Examples.nothing
  = Some (Ret (PDict [("items", PList [PDict [("id", PInt 1);
                                               ("name", PStr "Tokyo")]])]),
          World [[("q", PStr "Tokyo"); ("key", PStr "s3cr3t")]]
                [EvFetch "search.json" 0 [("q", PStr "Tokyo")];
                 EvOpen;
                 EvGet "https://api.weatherapi.com/v1/search.json"
                       [("q", PStr "Tokyo"); ("key", PStr "s3cr3t")];
                 EvClose]).
Proof. reflexivity. Qed.

(** A forecast over two days whose request times out. *)
Example forecast_times_out_run :
  get_weather_forecast Examples.environ_with_key Examples.times_out
    Examples.repr Examples.opens
    (PStr "Tokyo") (Some (PInt 2)) None (Some (PBool true)) Examples.nothing
  = Some (Raise (Exn ValueError "Request error: timed out"),
          World [[("q", PStr "Tokyo"); ("days", PInt 2); ("aqi", PStr "no");
                  ("alerts", PStr "yes"); ("key", PStr "s3cr3t")]]
                [EvFetch "forecast.json" 0
                   [("q", PStr "Tokyo"); ("days", PInt 2); ("aqi", PStr "no");
                    ("alerts", PStr "yes")];
                 EvOpen;
                 EvGet "https://api.weatherapi.com/v1/forecast.json"
                       [("q", PStr "Tokyo"); ("days", PInt 2); ("aqi", PStr "no");
                        ("alerts", PStr "yes"); ("key", PStr "s3cr3t")];
                 EvClose]).
Proof. reflexivity. Qed.

(** The current weather through the dispatch of keyword arguments, with
    an upstream that refuses the key. *)
Example current_weather_refused_run :
  fst <$> call Examples.environ_with_key (Examples.answers Examples.invalid_key)
            Examples.repr Examples.opens Fn_get_current_weather
            [("query", PStr "Paris"); ("include_air_quality", PBool true)]
            Examples.nothing
  = Some (Raise (Exn ValueError "Unexpected error: WeatherAPI error: Invalid key")).
Proof. reflexivity. Qed.

(** A search in an environment where the client does not open: the
    [ImportError] of the constructor leaves [search_locations] as it is,
    the key is in the dictionary and nothing was sent. *)
Example search_client_refused_run :
  search_locations Examples.environ_with_key (Examples.answers Examples.tokyo_found)
    Examples.repr Examples.socks_refused (PStr "Tokyo") Examples.nothing
  = Some (Raise Examples.no_socks,
          World [[("q", PStr "Tokyo"); ("key", PStr "s3cr3t")]]
                [EvFetch "search.json" 0 [("q", PStr "Tokyo")]]).
Proof. reflexivity. Qed.

(* ===================================================================== *)
(** ** The properties of the specification                                *)
(* ===================================================================== *)

Section Validation.

Variable environ : string -> option string.
Variable http_get : string -> pydict -> result response.
Variable py_repr : pyval -> string.
Variable open_client : result unit.

Abbreviation fetch := (fetch environ http_get py_repr open_client).
Abbreviation get_current_weather :=
  (get_current_weather environ http_get py_repr open_client).
Abbreviation get_weather_forecast :=
  (get_weather_forecast environ http_get py_repr open_client).
Abbreviation search_locations :=
  (search_locations environ http_get py_repr open_client).

(** [fetch] always comes back when its reference is one of the store,
    and its entry is the first thing the trace shows. *)
Lemma fetch_entered (endpoint : string) (d : pydict) (w : world) :
  enters_fetch endpoint d w (fetch endpoint (length (heap w)) (with_dict w d)).
Proof.
  pose proof (with_dict_lookup w d) as Hd.
  destruct (truthy (WEATHER_API_KEY environ)) eqn:Hkey.
  - rewrite (fetch_keyed _ _ _ _ _ _ _ _ Hd Hkey). cbn.
    now eexists _, _, _.
  - rewrite (fetch_without_key _ _ _ _ _ _ _ _ Hd Hkey). cbn.
    now eexists _, _, _.
Qed.

(** C1: with a non-empty query, [get_weather_forecast] called with an
    integer day count below 1 or above 3 raises the validation error and
    leaves the world as it was (no dictionary built, [fetch] not entered,
    nothing sent); with a day count of 1, 2 or 3 it goes on to [fetch]
    with the forecast parameters; with the day count left out it behaves
    as with 1. *)
Theorem forecast_days_validated
    (query : pyval) (aqi alerts : option pyval) (w : world) :
  truthy query = true ->
  (forall n : Z, (n < 1 \/ 3 < n)%Z ->
     get_weather_forecast query (Some (PInt n)) aqi alerts w
     = Some (Raise days_out_of_range, w))
  /\ (forall n : Z, (1 <= n <= 3)%Z ->
        let d := [("q", query);
                  ("days", PInt n);
                  ("aqi", yes_no (default (PBool false) aqi));
                  ("alerts", yes_no (default (PBool false) alerts))] in
        get_weather_forecast query (Some (PInt n)) aqi alerts w
        = fetch "forecast.json" (length (heap w)) (with_dict w d)
        /\ enters_fetch "forecast.json" d w
             (get_weather_forecast query (Some (PInt n)) aqi alerts w))
  /\ get_weather_forecast query None aqi alerts w
     = get_weather_forecast query (Some (PInt 1)) aqi alerts w.
Proof.
  intros Hq. split; [| split].
  - intros n Hn. now apply get_weather_forecast_out_of_range.
  - intros n Hn d.
    change (Some (PInt n)) with (PInt <$> Some n).
    rewrite (get_weather_forecast_run _ _ _ _ _ (Some n) _ _ _ Hq Hn).
    split; [reflexivity | apply fetch_entered].
  - reflexivity.
Qed.

(** C2: each of the three tool functions, called with an empty string or
    [None] (or any other falsy value) as its query, raises the validation
    error and leaves the world as it was: [fetch] is not entered and
    nothing is sent. *)
Theorem empty_query_rejected
    (query : pyval) (days aqi alerts : option pyval) (w : world) :
  truthy query = false ->
  get_current_weather query aqi w = Some (Raise query_required, w)
  /\ get_weather_forecast query days aqi alerts w = Some (Raise query_required, w)
  /\ search_locations query w = Some (Raise query_required, w).
Proof.
  intros Hq.
  unfold handlers.get_current_weather, handlers.get_weather_forecast,
    handlers.search_locations.
  rewrite Hq. cbn. repeat split.
Qed.

(** A call that does not give [query] at all is refused by the
    interpreter while it binds the arguments, before the body runs. *)
Lemma call_without_query (f : tool_function) (kwargs : pydict) (w : world) :
  Dict.get "query" kwargs = None ->
  exists msg,
    call environ http_get py_repr open_client f kwargs w
    = Some (Raise (Exn TypeError msg), w).
Proof.
  intros Hnone. unfold call.
  destruct (signature f) as [name parameters].
  destruct (find _ (Dict.keys kwargs)); [now eexists |].
  rewrite Hnone. now eexists.
Qed.

(** C3: with a non-empty query (and a day count in range, given or left
    out), the dictionary that [get_current_weather] and
    [get_weather_forecast] hand to [fetch] holds each flag as the string
    ["yes"] when the flag was given as [True] and ["no"] when it was given
    as [False] or left out, never as a boolean. *)
Theorem flags_sent_as_yes_or_no
    (query : pyval) (days : option Z) (aqi alerts : option bool) (w : world) :
  truthy query = true ->
  (1 <= default 1 days <= 3)%Z ->
  let current := [("q", query); ("aqi", PStr (flag_text aqi))] in
  let forecast := [("q", query);
                   ("days", PInt (default 1%Z days));
                   ("aqi", PStr (flag_text aqi));
                   ("alerts", PStr (flag_text alerts))] in
  (get_current_weather query (PBool <$> aqi) w
   = fetch "current.json" (length (heap w)) (with_dict w current)
   /\ enters_fetch "current.json" current w
        (get_current_weather query (PBool <$> aqi) w))
  /\ (get_weather_forecast query (PInt <$> days) (PBool <$> aqi) (PBool <$> alerts) w
      = fetch "forecast.json" (length (heap w)) (with_dict w forecast)
      /\ enters_fetch "forecast.json" forecast w
           (get_weather_forecast query (PInt <$> days)
              (PBool <$> aqi) (PBool <$> alerts) w)).
Proof.
  intros Hq Hdays current forecast. split.
  - rewrite (get_current_weather_run _ _ _ _ _ _ _ Hq), yes_no_flag.
    split; [reflexivity | apply fetch_entered].
  - rewrite (get_weather_forecast_run _ _ _ _ _ _ _ _ _ Hq Hdays), !yes_no_flag.
    split; [reflexivity | apply fetch_entered].
Qed.

End Validation.

(** The scenario of the specification: a forecast for Tokyo over 5 days. *)
Lemma forecast_days_validated_witness :
  get_weather_forecast Examples.environ_with_key (Examples.answers Examples.tokyo_found)
    Examples.repr Examples.opens
    (PStr "Tokyo") (Some (PInt 5)) None None Examples.nothing
  = Some (Raise days_out_of_range, Examples.nothing).
Proof.
  apply (forecast_days_validated Examples.environ_with_key
           (Examples.answers Examples.tokyo_found) Examples.repr Examples.opens
           (PStr "Tokyo") None None Examples.nothing).
  - reflexivity.
  - right. reflexivity.
Defined.

(** The scenario of the specification: a search with the empty string, and
    the same with [None]. *)
Lemma empty_query_rejected_witness :
  search_locations Examples.environ_with_key (Examples.answers Examples.tokyo_found)
    Examples.repr Examples.opens (PStr EmptyString) Examples.nothing
  = Some (Raise query_required, Examples.nothing)
  /\ search_locations Examples.environ_with_key (Examples.answers Examples.tokyo_found)
       Examples.repr Examples.opens PNone Examples.nothing
     = Some (Raise query_required, Examples.nothing).
Proof.
  split.
  - apply (empty_query_rejected Examples.environ_with_key
             (Examples.answers Examples.tokyo_found) Examples.repr Examples.opens
             (PStr EmptyString) None None None Examples.nothing).
    reflexivity.
  - apply (empty_query_rejected Examples.environ_with_key
             (Examples.answers Examples.tokyo_found) Examples.repr Examples.opens
             PNone None None None Examples.nothing).
    reflexivity.
Defined.

(** The scenario of the specification: the current weather of Paris with
    the air quality asked for. *)
Lemma flags_sent_as_yes_or_no_witness :
  enters_fetch "current.json" [("q", PStr "Paris"); ("aqi", PStr "yes")]
    Examples.nothing
    (get_current_weather Examples.environ_with_key
       (Examples.answers Examples.tokyo_found) Examples.repr Examples.opens
       (PStr "Paris") (Some (PBool true)) Examples.nothing).
Proof.
  apply (flags_sent_as_yes_or_no Examples.environ_with_key
           (Examples.answers Examples.tokyo_found) Examples.repr Examples.opens
           (PStr "Paris") None (Some true) None Examples.nothing).
  - reflexivity.
  - cbn. lia.
Defined.

Section Fetching.

Variable environ : string -> option string.
Variable http_get : string -> pydict -> result response.
Variable py_repr : pyval -> string.
Variable open_client : result unit.

Abbreviation KEY := (WEATHER_API_KEY environ).
Abbreviation fetch := (fetch environ http_get py_repr open_client).

Lemma detail_present (resp : response) (d : pyval) :
  detail_field resp = Some d -> detail_of resp = Ret d.
Proof.
  unfold detail_field, detail_of, data_of.
  destruct (json resp) as [[| | | | | | body] |]; try discriminate. cbn.
  destruct (Dict.get "error" body) as [[| | | | | | error] |] eqn:He; try discriminate.
  intros Hm.
  assert (Ht : truthy (PDict body) = true)
    by (destruct body; [discriminate | reflexivity]).
  unfold py_or. rewrite Ht. cbn. rewrite He. cbn. now rewrite Hm.
Qed.

Lemma detail_absent (resp : response) :
  detail_field resp = None -> walkable resp = true ->
  detail_of resp = Ret (PStr (text resp)).
Proof.
  unfold detail_field, walkable, detail_of, data_of, py_or.
  destruct (json resp) as [data |]; [| reflexivity]. cbn.
  destruct (truthy data) eqn:Ht; [| reflexivity].
  destruct data as [| | | | | | body]; try discriminate. cbn.
  destruct (Dict.get "error" body) as [[| | | | | | error] |]; try discriminate; cbn.
  - now intros ->.
  - reflexivity.
Qed.

Lemma detail_unwalkable (resp : response) :
  walkable resp = false ->
  exists v, detail_of resp
            = Raise (Exn AttributeError
                       ("'" +:+ type_name v +:+ "' object has no attribute 'get'"))
            /\ (forall d, v <> PDict d).
Proof.
  unfold walkable, detail_of, data_of, py_or.
  destruct (json resp) as [data |]; [| discriminate]. cbn.
  destruct (truthy data) eqn:Ht; [| discriminate].
  destruct data as [| | | | | | body];
    try (intros _; eexists; split; [reflexivity | discriminate]).
  cbn. destruct (Dict.get "error" body) as [[| | | | | | error] |];
    try discriminate;
    intros _; eexists; (split; [reflexivity | discriminate]).
Qed.

Lemma detail_walkable (resp : response) (d : pyval) :
  detail_field resp = Some d -> walkable resp = true.
Proof.
  unfold detail_field, walkable.
  destruct (json resp) as [[| | | | | | body] |]; try discriminate.
  destruct (Dict.get "error" body) as [[| | | | | | error] |] eqn:He; try discriminate.
  intros _. destruct body; [discriminate | reflexivity].
Qed.

Lemma py_get_raises (v : pyval) (k : string) (dflt : pyval) (e : exn) :
  py_get v k dflt = Raise e -> exn_class_of e = AttributeError.
Proof. destruct v; cbn; intros [= <-]; reflexivity. Qed.

Lemma detail_of_raises (resp : response) (e : exn) :
  detail_of resp = Raise e -> rewrap e = unexpected (exn_msg e).
Proof.
  unfold detail_of. intros H.
  assert (Hc : exn_class_of e = AttributeError).
  { destruct (py_get _ "error" _) as [err | e0] eqn:E.
    - now apply py_get_raises in H.
    - injection H as <-. now apply py_get_raises in E. }
  unfold rewrap, is_RequestError, is_Exception. now rewrite Hc.
Qed.

(** A response other than 200 makes [fetch] fail with the catch-all
    message, whatever the body. *)
Lemma upstream_failure
    (endpoint : string) (params : loc) (held : pydict) (w : world) (resp : response) :
  open_client = Ret tt ->
  heap w !! params = Some held ->
  truthy KEY = true ->
  http_get (base_url +:+ endpoint) (Dict.set "key" KEY held) = Ret resp ->
  status_code resp <> 200%Z ->
  exists rest w',
    fetch endpoint params w = Some (Raise (unexpected rest), w')
    /\ (forall d, detail_of resp = Ret d ->
          rest = "WeatherAPI error: " +:+ py_str py_repr d)
    /\ (forall e, detail_of resp = Raise e -> rest = exn_msg e).
Proof.
  intros Hopen Hheld Hkey Hget Hstatus.
  rewrite (fetch_with_key _ _ _ _ _ _ _ _ Hopen Hheld Hkey). cbn. rewrite Hget. cbn.
  apply Z.eqb_neq in Hstatus. rewrite Hstatus.
  destruct (detail_of resp) as [d | e] eqn:Hd.
  - eexists _, _. split; [reflexivity |]. split; [| discriminate].
    now intros ? [= <-].
  - rewrite (detail_of_raises _ _ Hd).
    eexists _, _. split; [reflexivity |]. split; [discriminate |].
    now intros ? [= <-].
Qed.

(** A response other than 200 makes [fetch] fail.  When the decoded body
    has the detail field [error.message], the message ends with that
    detail, so the body [{"error":{"message":"Invalid key"}}] gives a
    message containing ["Invalid key"].  When the field is absent and the
    body is undecodable, falsy, or a mapping whose ["error"] entry is
    missing or a mapping, the message ends with the raw response text. *)
Lemma upstream_error_detail
    (endpoint : string) (params : loc) (held : pydict) (w : world) (resp : response) :
  open_client = Ret tt ->
  heap w !! params = Some held ->
  truthy KEY = true ->
  http_get (base_url +:+ endpoint) (Dict.set "key" KEY held) = Ret resp ->
  status_code resp <> 200%Z ->
  exists msg w',
    fetch endpoint params w = Some (Raise (Exn ValueError msg), w')
    /\ (forall d, detail_field resp = Some d ->
          msg = "Unexpected error: WeatherAPI error: " +:+ py_str py_repr d)
    /\ (json resp = Some (PDict [("error", PDict [("message", PStr "Invalid key")])]) ->
        contains msg "Invalid key")
    /\ (detail_field resp = None -> walkable resp = true ->
        msg = "Unexpected error: WeatherAPI error: " +:+ text resp).
Proof.
  intros Hopen Hheld Hkey Hget Hstatus.
  destruct (upstream_failure _ _ _ _ _ Hopen Hheld Hkey Hget Hstatus)
    as (rest & w' & Hrun & Hret & Hraise).
  exists ("Unexpected error: " +:+ rest), w'.
  split; [exact Hrun |].
  assert (Hpresent : forall d, detail_field resp = Some d ->
            "Unexpected error: " +:+ rest
            = "Unexpected error: WeatherAPI error: " +:+ py_str py_repr d).
  { intros d Hd. now rewrite (Hret d (detail_present _ _ Hd)). }
  split; [exact Hpresent |]. split.
  - intros Hbody.
    rewrite (Hpresent (PStr "Invalid key")) by (unfold detail_field; now rewrite Hbody).
    apply StringFacts.contains_suffix.
  - intros Hnone Hwalk.
    now rewrite (Hret _ (detail_absent _ Hnone Hwalk)).
Qed.

(** Where the raw response text is lost: when the decoded body is truthy
    and not a mapping, or its ["error"] entry is not a mapping, the lookup
    of the detail raises, and what [fetch] reports is the attribute error
    of the value that is not a mapping. *)
Lemma upstream_error_lookup_raises
    (endpoint : string) (params : loc) (held : pydict) (w : world) (resp : response) :
  open_client = Ret tt ->
  heap w !! params = Some held ->
  truthy KEY = true ->
  http_get (base_url +:+ endpoint) (Dict.set "key" KEY held) = Ret resp ->
  status_code resp <> 200%Z ->
  walkable resp = false ->
  exists v w',
    (forall d, v <> PDict d)
    /\ fetch endpoint params w
       = Some (Raise (Exn ValueError
                        ("Unexpected error: '" +:+ type_name v
                         +:+ "' object has no attribute 'get'")), w').
Proof.
  intros Hopen Hheld Hkey Hget Hstatus Hwalk.
  destruct (upstream_failure _ _ _ _ _ Hopen Hheld Hkey Hget Hstatus)
    as (rest & w' & Hrun & _ & Hraise).
  destruct (detail_unwalkable _ Hwalk) as (v & Hv & Hnot).
  exists v, w'. split; [exact Hnot |].
  rewrite Hrun, (Hraise _ Hv). reflexivity.
Qed.

(** C5: when the environment gives no API key, or an empty one, [fetch]
    fails with the configuration error at its first statement: the store
    is as it was and nothing went out on the network.  Each tool function
    whose arguments pass its validation therefore fails with that same
    error without a request being sent. *)
Theorem missing_key_is_configuration_error :
  environ "WEATHER_API_KEY" = None
  \/ environ "WEATHER_API_KEY" = Some EmptyString ->
  (forall endpoint params held w,
      heap w !! params = Some held ->
      fetch endpoint params w
      = Some (Raise key_not_set,
              World (heap w) (trace w ++ [EvFetch endpoint params held]))
      /\ network_events (World (heap w) (trace w ++ [EvFetch endpoint params held]))
         = network_events w)
  /\ (forall query aqi w,
        truthy query = true ->
        exists w', get_current_weather environ http_get py_repr open_client query aqi w
                   = Some (Raise key_not_set, w')
                   /\ network_events w' = network_events w)
  /\ (forall query (days : option Z) aqi alerts w,
        truthy query = true -> (1 <= default 1 days <= 3)%Z ->
        exists w', get_weather_forecast environ http_get py_repr open_client
                     query (PInt <$> days) aqi alerts w
                   = Some (Raise key_not_set, w')
                   /\ network_events w' = network_events w)
  /\ (forall query w,
        truthy query = true ->
        exists w', search_locations environ http_get py_repr open_client query w
                   = Some (Raise key_not_set, w')
                   /\ network_events w' = network_events w).
Proof.
  intros Habsent.
  assert (Hkey : truthy KEY = false)
    by (unfold WEATHER_API_KEY; destruct Habsent as [-> | ->]; reflexivity).
  assert (Hnet : forall w ev, is_network ev = false ->
            network_events (World (heap w) (trace w ++ [ev])) = network_events w).
  { intros w0 ev Hev. unfold network_events. cbn.
    rewrite List.filter_app. cbn. rewrite Hev. apply app_nil_r. }
  assert (Hfetch : forall endpoint d w,
            exists w', fetch endpoint (length (heap w)) (with_dict w d)
                       = Some (Raise key_not_set, w')
                       /\ network_events w' = network_events w).
  { intros endpoint d w0.
    rewrite (fetch_without_key _ _ _ _ _ _ _ _ (with_dict_lookup w0 d) Hkey).
    eexists. split; [reflexivity |].
    now rewrite (Hnet (with_dict w0 d)). }
  split; [| split; [| split]].
  - intros endpoint params held w0 Hheld.
    rewrite (fetch_without_key _ _ _ _ _ _ _ _ Hheld Hkey).
    split; [reflexivity | now apply Hnet].
  - intros query aqi w0 Hq.
    rewrite (get_current_weather_run _ _ _ _ _ _ _ Hq). apply Hfetch.
  - intros query days aqi alerts w0 Hq Hdays.
    rewrite (get_weather_forecast_run _ _ _ _ _ _ _ _ _ Hq Hdays). apply Hfetch.
  - intros query w0 Hq.
    rewrite (search_locations_run _ _ _ _ _ _ Hq).
    destruct (Hfetch "search.json" [("q", query)] w0) as (w' & -> & Hw').
    now exists w'.
Qed.

(** C8: when the GET request fails in the transport (the client, once
    open, raises an [httpx.RequestError]: connection, time-out, name
    resolution), [fetch] fails with the message ["Request error: "]
    followed by the text of that exception; no response other than 200,
    whatever the network that gives it, leads to that message. *)
Theorem transport_failure_message
    (endpoint : string) (params : loc) (held : pydict) (w : world) (e : exn) :
  open_client = Ret tt ->
  heap w !! params = Some held ->
  truthy KEY = true ->
  http_get (base_url +:+ endpoint) (Dict.set "key" KEY held) = Raise e ->
  is_RequestError e = true ->
  let msg := "Request error: " +:+ exn_msg e in
  (exists w', fetch endpoint params w = Some (Raise (Exn ValueError msg), w'))
  /\ contains msg (exn_msg e)
  /\ (forall (upstream : string -> pydict -> result response)
             endpoint' params' held' w0 resp msg' w1,
        heap w0 !! params' = Some held' ->
        upstream (base_url +:+ endpoint') (Dict.set "key" KEY held') = Ret resp ->
        status_code resp <> 200%Z ->
        handlers.fetch environ upstream py_repr open_client endpoint' params' w0
        = Some (Raise (Exn ValueError msg'), w1) ->
        msg' <> msg).
Proof.
  intros Hopen Hheld Hkey Hget Hreq msg. split; [| split].
  - rewrite (fetch_with_key _ _ _ _ _ _ _ _ Hopen Hheld Hkey). cbn. rewrite Hget. cbn.
    unfold rewrap. rewrite Hreq. now eexists.
  - apply StringFacts.contains_suffix.
  - intros upstream endpoint' params' held' w0 resp msg' w1 Hheld' Hup Hstatus Hrun.
    rewrite (fetch_with_key _ _ _ _ _ _ _ _ Hopen Hheld' Hkey) in Hrun. cbn in Hrun.
    rewrite Hup in Hrun. cbn in Hrun.
    apply Z.eqb_neq in Hstatus. rewrite Hstatus in Hrun.
    assert (Hshape : exists rest, msg' = "Unexpected error: " +:+ rest).
    { destruct (detail_of resp) as [d | e0] eqn:Hd.
      - injection Hrun as <- _. now eexists.
      - rewrite (detail_of_raises _ _ Hd) in Hrun.
        injection Hrun as <- _. now eexists. }
    destruct Hshape as (rest & ->). subst msg.
    rewrite !StringFacts.append_cons. discriminate.
Qed.

(** C9: [fetch] stores the API key under ["key"] in the very dictionary
    its caller passed, before the request.  With a key configured, the
    caller's reference holds that dictionary with the key in it
    afterwards, its other entries are the ones it had, in their order (a
    dictionary without a ["key"] entry gets it at the end); the one GET
    request of the call, sent when the client opens, carries that same
    dictionary, and when the client does not open the key is stored all the
    same and no request follows.  Without a key there is no request and
    the dictionary stays as it was.  In all cases no other object of the
    store changes. *)
Theorem fetch_stores_key_in_place
    (endpoint : string) (params : loc) (held : pydict) (w : world) :
  heap w !! params = Some held ->
  let sent := Dict.set "key" KEY held in
  exists r w',
    fetch endpoint params w = Some (r, w')
    /\ (forall l : loc, l <> params -> heap w' !! l = heap w !! l)
    /\ length (heap w') = length (heap w)
    /\ (truthy KEY = true ->
        (open_client = Ret tt ->
         trace w' = trace w ++ [EvFetch endpoint params held; EvOpen;
                                EvGet (base_url +:+ endpoint) sent; EvClose])
        /\ (forall e, open_client = Raise e ->
              r = Raise e /\ trace w' = trace w ++ [EvFetch endpoint params held])
        /\ heap w' !! params = Some sent
        /\ Dict.get "key" sent = Some KEY
        /\ (forall k, k <> "key" -> Dict.get k sent = Dict.get k held)
        /\ Dict.others "key" sent = Dict.others "key" held
        /\ (Dict.get "key" held = None -> sent = held ++ [("key", KEY)]))
    /\ (truthy KEY = false ->
        trace w' = trace w ++ [EvFetch endpoint params held]
        /\ heap w' = heap w).
Proof.
  intros Hheld sent.
  destruct (truthy KEY) eqn:Hkey.
  - rewrite (fetch_keyed _ _ _ _ _ _ _ _ Hheld Hkey).
    eexists _, _. split; [reflexivity |]. cbn.
    split; [| split; [| split; [| discriminate]]].
    + intros l Hl. now apply list_lookup_insert_ne.
    + apply length_insert.
    + intros _. split; [| split; [| repeat split]].
      * intros ->. reflexivity.
      * intros e ->. split; reflexivity.
      * apply list_lookup_insert_eq. eapply lookup_lt_Some. eassumption.
      * apply DictFacts.get_set_eq.
      * intros k Hk. apply DictFacts.get_set_ne. congruence.
      * apply DictFacts.others_set.
      * apply DictFacts.set_new.
  - rewrite (fetch_without_key _ _ _ _ _ _ _ _ Hheld Hkey).
    eexists _, _. split; [reflexivity |]. cbn.
    split; [reflexivity |]. split; [reflexivity |].
    split; [discriminate |]. intros _. split; reflexivity.
Qed.

(** C10: a response with status 200 (to the request of a client that
    opened) makes [fetch] return: [None] when the body does not decode as
    JSON, and otherwise the decoded body as it is. *)
Theorem fetch_returns_decoded_body
    (endpoint : string) (params : loc) (held : pydict) (w : world) (resp : response) :
  open_client = Ret tt ->
  heap w !! params = Some held ->
  truthy KEY = true ->
  http_get (base_url +:+ endpoint) (Dict.set "key" KEY held) = Ret resp ->
  status_code resp = 200%Z ->
  exists w',
    (json resp = None -> fetch endpoint params w = Some (Ret PNone, w'))
    /\ (forall v, json resp = Some v -> fetch endpoint params w = Some (Ret v, w')).
Proof.
  intros Hopen Hheld Hkey Hget Hstatus.
  rewrite (fetch_with_key _ _ _ _ _ _ _ _ Hopen Hheld Hkey). cbn. rewrite Hget. cbn.
  rewrite Hstatus. cbn. unfold data_of.
  eexists. split.
  - intros ->. reflexivity.
  - intros v ->. reflexivity.
Qed.

(** C6: with a non-empty query, [search_locations] calls [fetch] with
    ["search.json"] and the dictionary [{"q": query}], and returns the
    dictionary whose one entry, ["items"], is the value [fetch] returned,
    as it is; when [fetch] fails, so does [search_locations], with the
    same exception.  In particular a response with status 200 (to the
    request of a client that opened) comes back as [{"items": body}]. *)
Theorem search_locations_wraps_items (query : pyval) (w : world) :
  truthy query = true ->
  search_locations environ http_get py_repr open_client query w
  = match fetch "search.json" (length (heap w)) (with_dict w [("q", query)]) with
    | Some (Ret locations, w') => Some (Ret (PDict [("items", locations)]), w')
    | other => other
    end
  /\ enters_fetch "search.json" [("q", query)] w
       (search_locations environ http_get py_repr open_client query w)
  /\ (forall resp,
        truthy KEY = true ->
        open_client = Ret tt ->
        http_get (base_url +:+ "search.json") [("q", query); ("key", KEY)] = Ret resp ->
        status_code resp = 200%Z ->
        exists w', search_locations environ http_get py_repr open_client query w
                   = Some (Ret (PDict [("items", data_of resp)]), w')).
Proof.
  intros Hq. rewrite (search_locations_run _ _ _ _ _ _ Hq).
  split; [reflexivity |]. split.
  - destruct (fetch_entered environ http_get py_repr open_client
                "search.json" [("q", query)] w)
      as (r & w' & rest & -> & Htrace).
    destruct r; eexists _, _, _; (split; [reflexivity | exact Htrace]).
  - intros resp Hkey Hopen Hget Hstatus.
    rewrite (fetch_with_key _ _ _ _ _ _ _ _ Hopen
               (with_dict_lookup w [("q", query)]) Hkey).
    cbn. change ("https://api.weatherapi.com/v1/" +:+ "search.json")
           with (base_url +:+ "search.json").
    rewrite Hget. cbn. rewrite Hstatus. cbn. now eexists.
Qed.

End Fetching.

(** C7: the dispatch table has two entries, ["get_weather"] for
    [get_weather_forecast] and ["search_locations"] for [search_locations];
    looking a name up finds exactly these, and no name finds
    [get_current_weather]. *)
Theorem dispatch_table_entries :
  length TOOL_FUNCTIONS = 2
  /\ NoDup (map fst TOOL_FUNCTIONS)
  /\ (forall name f,
        lookup_tool name = Some f
        <-> (name = "get_weather" /\ f = Fn_get_weather_forecast)
            \/ (name = "search_locations" /\ f = Fn_search_locations))
  /\ (forall name, lookup_tool name <> Some Fn_get_current_weather).
Proof.
  assert (Hlookup : forall name f,
            lookup_tool name = Some f
            <-> (name = "get_weather" /\ f = Fn_get_weather_forecast)
                \/ (name = "search_locations" /\ f = Fn_search_locations)).
  { intros name f. unfold lookup_tool, TOOL_FUNCTIONS. cbn.
    destruct (String.eqb_spec name "get_weather") as [-> | Hw]; cbn.
    - split.
      + intros [= <-]. now left.
      + intros [[_ ->] | [[=] _]]. reflexivity.
    - destruct (String.eqb_spec name "search_locations") as [-> | Hs]; cbn.
      + split.
        * intros [= <-]. now right.
        * intros [[[=] _] | [_ ->]]. reflexivity.
      + split; [discriminate |]. intros [[-> _] | [-> _]]; contradiction. }
  split; [reflexivity |]. split; [| split].
  - cbn. apply NoDup_cons. split; [| apply NoDup_singleton].
    rewrite list_elem_of_singleton. discriminate.
  - exact Hlookup.
  - intros name Hname. apply Hlookup in Hname.
    destruct Hname as [[_ [=]] | [_ [=]]].
Qed.

(** The scenario of the specification: the upstream answers 403 with
    [{"error":{"message":"Invalid key"}}]; and a gateway that answers 502
    with a page that is not JSON. *)
Example upstream_error_detail_runs :
  fails_mentioning "Invalid key"
    (fetch Examples.environ_with_key (Examples.answers Examples.invalid_key)
       Examples.repr Examples.opens "current.json" 0 Examples.holding_paris)
  /\ fails_mentioning (text Examples.bad_gateway)
       (fetch Examples.environ_with_key (Examples.answers Examples.bad_gateway)
          Examples.repr Examples.opens "current.json" 0 Examples.holding_paris).
Proof.
  split.
  - destruct (upstream_error_detail Examples.environ_with_key
                (Examples.answers Examples.invalid_key) Examples.repr Examples.opens
                "current.json" 0 Examples.paris Examples.holding_paris
                Examples.invalid_key eq_refl eq_refl eq_refl eq_refl)
      as (msg & w' & Hrun & _ & Hbody & _).
    + discriminate.
    + exists msg, w'. split; [exact Hrun | apply Hbody; reflexivity].
  - destruct (upstream_error_detail Examples.environ_with_key
                (Examples.answers Examples.bad_gateway) Examples.repr Examples.opens
                "current.json" 0 Examples.paris Examples.holding_paris
                Examples.bad_gateway eq_refl eq_refl eq_refl eq_refl)
      as (msg & w' & Hrun & _ & _ & Habsent).
    + discriminate.
    + exists msg, w'. split; [exact Hrun |].
      rewrite (Habsent eq_refl eq_refl).
      apply StringFacts.contains_suffix.
Qed.

(** C4: the fallback to the raw response text is missed.  A 403 response
    whose body is [{"error":"Forbidden"}] has no detail field
    [error.message]; the lookup of the detail,
    [(data or {}).get("error", {}).get("message", resp.text)], finds the
    string under ["error"] and raises on its second [.get], and [fetch]
    fails with the text of that attribute error, in which the raw response
    text does not occur.  The default [resp.text] of that same lookup shows
    what was meant, and the bodies that are no mapping are not treated
    alike: the body [[]] is answered with the raw text, the body [[1]]
    with the attribute error. *)
Theorem upstream_error_fallback_missed :
  let after (resp : response) :=
    fst <$> fetch Examples.environ_with_key (Examples.answers resp)
              Examples.repr Examples.opens "current.json" 0 Examples.holding_paris in
  status_code Examples.forbidden = 403%Z
  /\ detail_field Examples.forbidden = None
  /\ after Examples.forbidden
     = Some (Raise (Exn ValueError
                      "Unexpected error: 'str' object has no attribute 'get'"))
  /\ ~ fails_mentioning (text Examples.forbidden)
         (fetch Examples.environ_with_key (Examples.answers Examples.forbidden)
            Examples.repr Examples.opens "current.json" 0 Examples.holding_paris)
  /\ detail_field Examples.empty_list = None
  /\ after Examples.empty_list
     = Some (Raise (Exn ValueError "Unexpected error: WeatherAPI error: []"))
  /\ detail_field Examples.one_item = None
  /\ after Examples.one_item
     = Some (Raise (Exn ValueError
                      "Unexpected error: 'list' object has no attribute 'get'")).
Proof.
  cbv zeta.
  split; [reflexivity |]. split; [reflexivity |]. split; [reflexivity |].
  split; [| repeat split].
  intros (msg & w' & Hrun & Hin).
  vm_compute in Hrun. injection Hrun as <- _.
  apply (StringFacts.contains_chars _ _ "{"%char) in Hin.
  - cbn in Hin. repeat (destruct Hin as [Hin | Hin]; [discriminate Hin |]).
    exact Hin.
  - left. reflexivity.
Qed.

(** Without a key, and with an empty one, a search for Tokyo fails with the
    configuration error and nothing is sent. *)
Lemma missing_key_is_configuration_error_witness :
  (exists w', search_locations Examples.environ_without_key
                (Examples.answers Examples.tokyo_found) Examples.repr Examples.opens
                (PStr "Tokyo") Examples.nothing
              = Some (Raise key_not_set, w')
              /\ network_events w' = network_events Examples.nothing)
  /\ (exists w', search_locations Examples.environ_empty_key
                   (Examples.answers Examples.tokyo_found) Examples.repr Examples.opens
                   (PStr "Tokyo") Examples.nothing
                 = Some (Raise key_not_set, w')
                 /\ network_events w' = network_events Examples.nothing).
Proof.
  split.
  - destruct (missing_key_is_configuration_error Examples.environ_without_key
                (Examples.answers Examples.tokyo_found) Examples.repr Examples.opens
                (or_introl eq_refl)) as (_ & _ & _ & Hsearch).
    apply Hsearch. reflexivity.
  - destruct (missing_key_is_configuration_error Examples.environ_empty_key
                (Examples.answers Examples.tokyo_found) Examples.repr Examples.opens
                (or_intror eq_refl)) as (_ & _ & _ & Hsearch).
    apply Hsearch. reflexivity.
Defined.

(** A request for the forecast that times out. *)
Lemma transport_failure_message_witness :
  exists w', fetch Examples.environ_with_key Examples.times_out
               Examples.repr Examples.opens
               "forecast.json" 0 Examples.holding_paris
             = Some (Raise (Exn ValueError "Request error: timed out"), w').
Proof.
  destruct (transport_failure_message Examples.environ_with_key Examples.times_out
              Examples.repr Examples.opens
              "forecast.json" 0 Examples.paris Examples.holding_paris
              (Exn RequestError "timed out") eq_refl eq_refl eq_refl eq_refl eq_refl)
    as (Hrun & _).
  exact Hrun.
Defined.

(** The caller's dictionary, at reference 0, after a call of [fetch]. *)
Lemma fetch_stores_key_in_place_witness :
  exists r w', fetch Examples.environ_with_key (Examples.answers Examples.tokyo_found)
                 Examples.repr Examples.opens "current.json" 0 Examples.holding_paris
               = Some (r, w')
               /\ heap w' !! 0
                  = Some [("q", PStr "Paris"); ("aqi", PStr "no");
                          ("key", PStr "s3cr3t")].
Proof.
  destruct (fetch_stores_key_in_place Examples.environ_with_key
              (Examples.answers Examples.tokyo_found) Examples.repr Examples.opens
              "current.json" 0 Examples.paris Examples.holding_paris eq_refl)
    as (r & w' & Hrun & _ & _ & Hkey & _).
  destruct (Hkey eq_refl) as (_ & _ & Hsent & _).
  exists r, w'. split; [exact Hrun | exact Hsent].
Defined.

(** A page that is not JSON, answered with status 200. *)
Lemma fetch_returns_decoded_body_witness :
  exists w', fetch Examples.environ_with_key (Examples.answers Examples.html_page)
               Examples.repr Examples.opens "current.json" 0 Examples.holding_paris
             = Some (Ret PNone, w').
Proof.
  destruct (fetch_returns_decoded_body Examples.environ_with_key
              (Examples.answers Examples.html_page) Examples.repr Examples.opens
              "current.json" 0 Examples.paris Examples.holding_paris
              Examples.html_page eq_refl eq_refl eq_refl eq_refl eq_refl)
    as (w' & Hnone & _).
  exists w'. apply Hnone. reflexivity.
Defined.

(** A search for Tokyo that the upstream answers with one location. *)
Lemma search_locations_wraps_items_witness :
  exists w', search_locations Examples.environ_with_key
               (Examples.answers Examples.tokyo_found) Examples.repr Examples.opens
               (PStr "Tokyo") Examples.nothing
             = Some (Ret (PDict [("items",
                                  PList [PDict [("id", PInt 1);
                                                ("name", PStr "Tokyo")]])]),
                     w').
Proof.
  destruct (search_locations_wraps_items Examples.environ_with_key
              (Examples.answers Examples.tokyo_found) Examples.repr Examples.opens
              (PStr "Tokyo") Examples.nothing eq_refl)
    as (_ & _ & Hok).
  apply (Hok Examples.tokyo_found); reflexivity.
Defined.

(* ===================================================================== *)
(** ** Further properties of the fetch helper                             *)
(* ===================================================================== *)

(** Storing a value a second time under the same key changes nothing. *)
Lemma dict_set_twice (k : string) (v : pyval) (d : pydict) :
  Dict.set k v (Dict.set k v d) = Dict.set k v d.
Proof.
  induction d as [| [k0 v0] d IH]; cbn.
  - now rewrite String.eqb_refl.
  - destruct (String.eqb k k0) eqn:E; cbn; rewrite E; [reflexivity |].
    now rewrite IH.
Qed.

Section FetchDiscipline.

Variable environ : string -> option string.
Variable http_get : string -> pydict -> result response.
Variable py_repr : pyval -> string.
Variable open_client : result unit.

Abbreviation KEY := (WEATHER_API_KEY environ).
Abbreviation fetch := (fetch environ http_get py_repr open_client).



(** What [fetch] makes of the outcome of its request, when that is a
    value. *)
Lemma fetch_outcome_returns (got : result response) (v : pyval) :
  fetch_outcome py_repr got = Ret v ->
  exists resp, got = Ret resp /\ status_code resp = 200%Z /\ v = data_of resp.
Proof.
  unfold fetch_outcome.
  destruct got as [resp | e0]; [| discriminate].
  destruct (Z.eqb_spec (status_code resp) 200) as [Hs | Hs].
  - intros [= <-]. now exists resp.
  - destruct (detail_of resp); discriminate.
Qed.


(** X2: [fetch] returns a value only when a key is configured and the upstream
    answered the request with status 200, and the value is then the decoded
    body of that response ([None] for a body that does not decode). *)
Theorem fetch_returns_only_on_200
    (endpoint : string) (params : loc) (held : pydict) (w w' : world) (v : pyval) :
  heap w !! params = Some held ->
  fetch endpoint params w = Some (Ret v, w') ->
  truthy KEY = true
  /\ exists resp,
       http_get (base_url +:+ endpoint) (Dict.set "key" KEY held) = Ret resp
       /\ status_code resp = 200%Z
       /\ v = data_of resp.
Proof.
  intros Hheld Hrun.
  destruct (truthy KEY) eqn:Hkey.
  - split; [reflexivity |].
    rewrite (fetch_keyed _ _ _ _ _ _ _ _ Hheld Hkey) in Hrun. cbn in Hrun.
    injection Hrun as Hout _.
    destruct open_client as [[] | e0]; cbn in Hout; [| discriminate].
    now apply fetch_outcome_returns.
  - rewrite (fetch_without_key _ _ _ _ _ _ _ _ Hheld Hkey) in Hrun. discriminate.
Qed.

(** X3: calling [fetch] again with the dictionary of an earlier call sends the
    same parameters again: the key is stored over itself, not added a
    second time, and the dictionary stays as the first call left it.  (The
    request is sent when the client opens; when it does not, the second
    call finds the same dictionary and stops at the exception of the
    constructor.) *)
Theorem fetch_again_same_parameters
    (first second : string) (params : loc) (held : pydict)
    (w w1 : world) (r1 : result pyval) :
  heap w !! params = Some held ->
  truthy KEY = true ->
  fetch first params w = Some (r1, w1) ->
  let sent := Dict.set "key" KEY held in
  exists r2 w2,
    fetch second params w1 = Some (r2, w2)
    /\ heap w2 = heap w1
    /\ (open_client = Ret tt ->
        trace w2 = trace w1 ++ [EvFetch second params sent; EvOpen;
                                EvGet (base_url +:+ second) sent; EvClose])
    /\ (forall e, open_client = Raise e ->
          r2 = Raise e /\ trace w2 = trace w1 ++ [EvFetch second params sent]).
Proof.
  intros Hheld Hkey Hrun sent.
  rewrite (fetch_keyed _ _ _ _ _ _ _ _ Hheld Hkey) in Hrun.
  injection Hrun as _ <-.
  assert (Hsent : heap (World (<[params := sent]> (heap w))
                          (trace w ++ EvFetch first params held
                                      :: client_events open_client
                                           (base_url +:+ first) sent))
                  !! params = Some sent).
  { cbn. apply list_lookup_insert_eq. eapply lookup_lt_Some. eassumption. }
  rewrite (fetch_keyed _ _ _ _ _ _ _ _ Hsent Hkey).
  assert (Hidem : Dict.set "key" KEY sent = sent) by apply dict_set_twice.
  cbn zeta. rewrite !Hidem. eexists _, _. split; [reflexivity |]. cbn.
  split; [| split].
  - apply list_insert_id. apply list_lookup_insert_eq.
    eapply lookup_lt_Some. eassumption.
  - intros ->. reflexivity.
  - intros e ->. split; reflexivity.
Qed.

End FetchDiscipline.

(* ===================================================================== *)
(** ** Further properties of the tool functions                           *)
(* ===================================================================== *)

Section ToolDiscipline.

Variable environ : string -> option string.
Variable http_get : string -> pydict -> result response.
Variable py_repr : pyval -> string.
Variable open_client : result unit.

Abbreviation KEY := (WEATHER_API_KEY environ).
Abbreviation fetch := (fetch environ http_get py_repr open_client).
Abbreviation get_current_weather :=
  (get_current_weather environ http_get py_repr open_client).
Abbreviation get_weather_forecast :=
  (get_weather_forecast environ http_get py_repr open_client).
Abbreviation search_locations :=
  (search_locations environ http_get py_repr open_client).

(** [fetch] on a dictionary that was just built: its outcome and what the
    HTTP client did do not depend on the world in which it runs. *)
Lemma fetch_fresh_outcome (endpoint : string) (d : pydict) (w : world) :
  exists w',
    fetch endpoint (length (heap w)) (with_dict w d)
    = Some (if truthy KEY
            then through_client open_client
                   (fetch_outcome py_repr
                      (http_get (base_url +:+ endpoint) (Dict.set "key" KEY d)))
            else Raise key_not_set, w')
    /\ network_events w'
       = network_events w
         ++ (if truthy KEY
             then client_events open_client
                    (base_url +:+ endpoint) (Dict.set "key" KEY d)
             else []).
Proof.
  pose proof (with_dict_lookup w d) as Hd.
  destruct (truthy KEY) eqn:Hkey.
  - rewrite (fetch_keyed _ _ _ _ _ _ _ _ Hd Hkey). cbn zeta.
    eexists. split; [reflexivity |].
    unfold network_events. cbn. rewrite List.filter_app. cbn.
    destruct open_client as [[] | e]; reflexivity.
  - rewrite (fetch_without_key _ _ _ _ _ _ _ _ Hd Hkey).
    eexists. split; [reflexivity |].
    unfold network_events. cbn. now rewrite List.filter_app.
Qed.

(** [fetch] on a dictionary that was just built. *)
Lemma fetch_fresh (endpoint : string) (d : pydict) (q : pyval) (w : world) :
  Dict.get "q" d = Some q ->
  truthy q = true ->
  exists r w',
    fetch endpoint (length (heap w)) (with_dict w d) = Some (r, w')
    /\ at_most_one_request KEY (base_url +:+ endpoint) q w w'
    /\ extends_store w w'.
Proof.
  intros Hq Htruthy.
  pose proof (with_dict_lookup w d) as Hd.
  destruct (truthy KEY) eqn:Hkey.
  - rewrite (fetch_keyed _ _ _ _ _ _ _ _ Hd Hkey). cbn zeta.
    eexists _, _. split; [reflexivity |]. split.
    + unfold at_most_one_request, network_events. cbn.
      rewrite List.filter_app. cbn.
      destruct open_client as [[] | e]; cbn.
      * right. exists (Dict.set "key" KEY d).
        split; [reflexivity |]. split; [| split; [| split]].
        -- apply DictFacts.get_set_eq.
        -- rewrite DictFacts.get_set_ne by discriminate. exact Hq.
        -- exact Hkey.
        -- exact Htruthy.
      * left. apply app_nil_r.
    + exists [Dict.set "key" KEY d]. split; [| cbn; lia]. cbn.
      rewrite insert_app_r_alt by lia. now rewrite Nat.sub_diag.
  - rewrite (fetch_without_key _ _ _ _ _ _ _ _ Hd Hkey).
    eexists _, _. split; [reflexivity |]. split.
    + left. unfold network_events. cbn. rewrite List.filter_app. cbn.
      apply app_nil_r.
    + exists [d]. split; [reflexivity | cbn; lia].
Qed.

(** [get_weather_forecast] after its check of the query. *)
Lemma get_weather_forecast_checked
    (query : pyval) (days aqi alerts : option pyval) (w : world) :
  truthy query = true ->
  get_weather_forecast query days aqi alerts w
  = match days_outside (default (PInt 1) days) with
    | Raise e => Some (Raise e, w)
    | Ret true => Some (Raise days_out_of_range, w)
    | Ret false =>
        fetch "forecast.json" (length (heap w))
          (with_dict w [("q", query);
                        ("days", default (PInt 1) days);
                        ("aqi", yes_no (default (PBool false) aqi));
                        ("alerts", yes_no (default (PBool false) alerts))])
    end.
Proof.
  intros Hq. unfold handlers.get_weather_forecast, days_outside. rewrite Hq. cbn.
  unfold mbind, M_bind, lift.
  destruct (py_lt_int (default (PInt 1) days) 1) as [[|] | e]; cbn;
    [reflexivity | | reflexivity].
  destruct (py_gt_int (default (PInt 1) days) 3) as [[|] | e]; reflexivity.
Qed.

Lemma same_world (w : world) (key : pyval) (url : string) (q : pyval) :
  at_most_one_request key url q w w /\ extends_store w w.
Proof.
  split; [now left |]. exists []. split; [now rewrite app_nil_r | cbn; lia].
Qed.

(** How each tool function runs: it always ends, with at most one request
    behind it and the store extended by at most its own dictionary. *)
Lemma tool_runs (query : pyval) (days aqi alerts : option pyval) (w : world) :
  (exists r w',
      get_current_weather query aqi w = Some (r, w')
      /\ at_most_one_request KEY (base_url +:+ "current.json") query w w'
      /\ extends_store w w')
  /\ (exists r w',
         get_weather_forecast query days aqi alerts w = Some (r, w')
         /\ at_most_one_request KEY (base_url +:+ "forecast.json") query w w'
         /\ extends_store w w')
  /\ (exists r w',
         search_locations query w = Some (r, w')
         /\ at_most_one_request KEY (base_url +:+ "search.json") query w w'
         /\ extends_store w w').
Proof.
  destruct (truthy query) eqn:Hq.
  - split; [| split].
    + rewrite (get_current_weather_run _ _ _ _ _ _ _ Hq).
      now apply fetch_fresh.
    + rewrite (get_weather_forecast_checked _ _ _ _ _ Hq).
      destruct (days_outside (default (PInt 1) days)) as [[|] | e].
      * eexists _, _. split; [reflexivity | apply same_world].
      * now apply fetch_fresh.
      * eexists _, _. split; [reflexivity | apply same_world].
    + rewrite (search_locations_run _ _ _ _ _ _ Hq).
      destruct (fetch_fresh "search.json" [("q", query)] query w eq_refl Hq)
        as (r & w' & -> & Hreq & Hext).
      destruct r; eexists _, _; (split; [reflexivity | now split]).
  - unfold handlers.get_current_weather, handlers.get_weather_forecast,
      handlers.search_locations.
    rewrite Hq. cbn.
    repeat split; eexists _, _; (split; [reflexivity | apply same_world]).
Qed.

(** X4: every call of a tool function ends, and the HTTP client did nothing
    during it or sent exactly one GET request: to the endpoint of that
    function, with the configured key and the caller's query in its
    parameters, and only when both are truthy. *)
Theorem tools_send_at_most_one_request
    (query : pyval) (days aqi alerts : option pyval) (w : world) :
  (exists r w',
      get_current_weather query aqi w = Some (r, w')
      /\ at_most_one_request KEY (base_url +:+ "current.json") query w w')
  /\ (exists r w',
         get_weather_forecast query days aqi alerts w = Some (r, w')
         /\ at_most_one_request KEY (base_url +:+ "forecast.json") query w w')
  /\ (exists r w',
         search_locations query w = Some (r, w')
         /\ at_most_one_request KEY (base_url +:+ "search.json") query w w').
Proof.
  destruct (tool_runs query days aqi alerts w)
    as ((r1 & w1 & H1 & Hreq1 & _) & (r2 & w2 & H2 & Hreq2 & _)
        & (r3 & w3 & H3 & Hreq3 & _)).
  repeat split; eexists _, _; (split; [eassumption | assumption]).
Qed.

(** X5: a tool function never changes an object that was in the store before
    the call: all it adds is the dictionary of its own request. *)
Theorem tools_extend_store
    (query : pyval) (days aqi alerts : option pyval) (w : world) :
  (exists r w',
      get_current_weather query aqi w = Some (r, w') /\ extends_store w w')
  /\ (exists r w',
         get_weather_forecast query days aqi alerts w = Some (r, w')
         /\ extends_store w w')
  /\ (exists r w',
         search_locations query w = Some (r, w') /\ extends_store w w').
Proof.
  destruct (tool_runs query days aqi alerts w)
    as ((r1 & w1 & H1 & _ & Hext1) & (r2 & w2 & H2 & _ & Hext2)
        & (r3 & w3 & H3 & _ & Hext3)).
  repeat split; eexists _, _; (split; [eassumption | assumption]).
Qed.


Lemma days_outside_not_a_number (days : pyval) :
  is_number days = false ->
  exists msg, days_outside days = Raise (Exn TypeError msg).
Proof. destruct days; try discriminate; intros _; now eexists. Qed.


(** X7: day counts that are not integers.  One that is not a number at all (a
    string, [None], a list, a mapping) stops [get_weather_forecast] with a
    [TypeError] before anything happens.  [False] is refused as out of
    range, [True] is accepted and sent on as a boolean, and the float NaN,
    which is neither below 1 nor above 3, is accepted too. *)
Theorem forecast_days_of_other_types
    (query : pyval) (aqi alerts : option pyval) (w : world) :
  truthy query = true ->
  let parameters days := [("q", query);
                          ("days", days);
                          ("aqi", yes_no (default (PBool false) aqi));
                          ("alerts", yes_no (default (PBool false) alerts))] in
  (forall days, is_number days = false ->
     exists msg, get_weather_forecast query (Some days) aqi alerts w
                 = Some (Raise (Exn TypeError msg), w))
  /\ get_weather_forecast query (Some (PBool false)) aqi alerts w
     = Some (Raise days_out_of_range, w)
  /\ enters_fetch "forecast.json" (parameters (PBool true)) w
       (get_weather_forecast query (Some (PBool true)) aqi alerts w)
  /\ enters_fetch "forecast.json" (parameters (PFloat S754_nan)) w
       (get_weather_forecast query (Some (PFloat S754_nan)) aqi alerts w).
Proof.
  intros Hq parameters. split; [| split; [| split]].
  - intros days Hdays.
    rewrite (get_weather_forecast_checked _ _ _ _ _ Hq). cbn.
    destruct (days_outside_not_a_number _ Hdays) as (msg & ->). now exists msg.
  - now rewrite (get_weather_forecast_checked _ _ _ _ _ Hq).
  - rewrite (get_weather_forecast_checked _ _ _ _ _ Hq). cbn.
    apply fetch_entered.
  - rewrite (get_weather_forecast_checked _ _ _ _ _ Hq). cbn.
    apply fetch_entered.
Qed.

(** X8: a tool function returns a value only when its query is truthy, a key
    is configured and the upstream answered its one request with status
    200: the value is then the decoded body, which [search_locations]
    puts under ["items"]. *)
Theorem tools_return_only_on_200
    (query : pyval) (days aqi alerts : option pyval) (w w' : world) (v : pyval) :
  let answered endpoint body :=
    truthy query = true
    /\ truthy KEY = true
    /\ exists sent resp,
         http_get (base_url +:+ endpoint) sent = Ret resp
         /\ Dict.get "q" sent = Some query
         /\ status_code resp = 200%Z
         /\ body = data_of resp in
  (get_current_weather query aqi w = Some (Ret v, w') -> answered "current.json" v)
  /\ (get_weather_forecast query days aqi alerts w = Some (Ret v, w') ->
      answered "forecast.json" v)
  /\ (search_locations query w = Some (Ret v, w') ->
      exists locations,
        v = PDict [("items", locations)] /\ answered "search.json" locations).
Proof.
  intros answered.
  assert (Hfetch : forall endpoint d w1 body,
            truthy query = true ->
            Dict.get "q" d = Some query ->
            fetch endpoint (length (heap w)) (with_dict w d) = Some (Ret body, w1) ->
            answered endpoint body).
  { intros endpoint d w1 body Hq Hd Hrun.
    destruct (fetch_fresh_outcome endpoint d w) as (w0 & Hfresh & _).
    rewrite Hfresh in Hrun. clear Hfresh. injection Hrun as Hout _.
    destruct (truthy KEY) eqn:Hkey; [| discriminate].
    destruct open_client as [[] | e0]; cbn in Hout; [| discriminate].
    destruct (fetch_outcome_returns _ _ _ Hout)
      as (resp & Hget & Hstatus & Hbody).
    split; [exact Hq |]. split; [reflexivity |].
    exists (Dict.set "key" KEY d), resp.
    split; [exact Hget |]. split; [| now split].
    rewrite DictFacts.get_set_ne by discriminate. exact Hd. }
  destruct (truthy query) eqn:Hq.
  - split; [| split].
    + rewrite (get_current_weather_run _ _ _ _ _ _ _ Hq).
      intros Hrun. refine (Hfetch _ _ _ _ eq_refl _ Hrun). reflexivity.
    + rewrite (get_weather_forecast_checked _ _ _ _ _ Hq).
      destruct (days_outside (default (PInt 1) days)) as [[|] | e0];
        try discriminate.
      intros Hrun. refine (Hfetch _ _ _ _ eq_refl _ Hrun). reflexivity.
    + rewrite (search_locations_run _ _ _ _ _ _ Hq).
      destruct (fetch "search.json" _ _) as [[[body | e0] w1] |] eqn:Hrun;
        try discriminate.
      intros [= <- <-]. exists body. split; [reflexivity |].
      refine (Hfetch _ _ _ _ eq_refl _ Hrun). reflexivity.
  - unfold handlers.get_current_weather, handlers.get_weather_forecast,
      handlers.search_locations.
    rewrite Hq. cbn. repeat split; discriminate.
Qed.

(** X9: a flag is judged by its truthiness, whatever its type: every non-empty
    string, ["no"] and ["false"] among them, is sent as ["yes"]. *)
Theorem string_flags_are_sent_as_yes
    (query : pyval) (aqi alerts : string) (w : world) :
  truthy query = true ->
  aqi <> EmptyString ->
  alerts <> EmptyString ->
  enters_fetch "current.json" [("q", query); ("aqi", PStr "yes")] w
    (get_current_weather query (Some (PStr aqi)) w)
  /\ enters_fetch "forecast.json"
       [("q", query); ("days", PInt 1); ("aqi", PStr "yes"); ("alerts", PStr "yes")] w
       (get_weather_forecast query None (Some (PStr aqi)) (Some (PStr alerts)) w).
Proof.
  intros Hq Haqi Halerts.
  assert (Hyes : forall s, s <> EmptyString -> yes_no (PStr s) = PStr "yes")
    by (intros [| c s] Hs; [contradiction | reflexivity]).
  split.
  - rewrite (get_current_weather_run _ _ _ _ _ _ _ Hq). cbn.
    rewrite (Hyes _ Haqi). apply fetch_entered.
  - rewrite (get_weather_forecast_checked _ _ _ _ _ Hq). cbn.
    rewrite (Hyes _ Haqi), (Hyes _ Halerts). apply fetch_entered.
Qed.

End ToolDiscipline.

(* ===================================================================== *)
(** ** Calls through the dispatch table                                   *)
(* ===================================================================== *)

Section Dispatch.

Variable environ : string -> option string.
Variable http_get : string -> pydict -> result response.
Variable py_repr : pyval -> string.
Variable open_client : result unit.

Abbreviation KEY := (WEATHER_API_KEY environ).
Abbreviation call := (call environ http_get py_repr open_client).

Lemma lookup_tool_cases (name : string) (f : tool_function) :
  lookup_tool name = Some f ->
  f = Fn_get_weather_forecast \/ f = Fn_search_locations.
Proof.
  unfold lookup_tool, TOOL_FUNCTIONS. cbn.
  destruct (String.eqb name "get_weather"); cbn; [intros [= <-]; now left |].
  destruct (String.eqb name "search_locations"); cbn; [intros [= <-]; now right |].
  discriminate.
Qed.

(** X10: through the dispatch table the HTTP client sends at most one request
    for a call, and only to the forecast or the search endpoint (never to
    the endpoint of the current weather), with the configured key and the
    ["query"] argument of the call in its parameters. *)
Theorem dispatched_calls_request_forecast_or_search
    (name : string) (f : tool_function) (kwargs : pydict) (w : world) :
  lookup_tool name = Some f ->
  exists r w',
    call f kwargs w = Some (r, w')
    /\ (network_events w' = network_events w
        \/ exists url sent query,
             network_events w' = network_events w ++ [EvOpen; EvGet url sent; EvClose]
             /\ (url = base_url +:+ "forecast.json"
                 \/ url = base_url +:+ "search.json")
             /\ Dict.get "query" kwargs = Some query
             /\ Dict.get "q" sent = Some query
             /\ Dict.get "key" sent = Some KEY).
Proof.
  intros Hname. unfold handlers.call.
  destruct (signature f) as [fname parameters] eqn:Hsig.
  destruct (find _ (Dict.keys kwargs)) as [k |].
  { eexists _, _. split; [reflexivity | now left]. }
  destruct (Dict.get "query" kwargs) as [query |] eqn:Hquery.
  2: { eexists _, _. split; [reflexivity | now left]. }
  destruct (tool_runs environ http_get py_repr open_client query
              (Dict.get "days" kwargs)
              (Dict.get "include_air_quality" kwargs)
              (Dict.get "include_alerts" kwargs) w)
    as (_ & (r2 & w2 & H2 & Hreq2 & _) & (r3 & w3 & H3 & Hreq3 & _)).
  destruct (lookup_tool_cases _ _ Hname) as [-> | ->].
  - exists r2, w2. split; [exact H2 |].
    destruct Hreq2 as [Hnone | (sent & Hone & Hk & Hq & _)]; [now left |].
    right. exists (base_url +:+ "forecast.json"), sent, query.
    repeat split; try assumption. now left.
  - exists r3, w3. split; [exact H3 |].
    destruct Hreq3 as [Hnone | (sent & Hone & Hk & Hq & _)]; [now left |].
    right. exists (base_url +:+ "search.json"), sent, query.
    repeat split; try assumption. now right.
Qed.

(** X11: a call with a keyword argument that the function does not have (such
    as [q] for [query]), or without the [query] argument, is refused with a
    [TypeError] while the arguments are bound: the body does not run and
    nothing happens. *)
Theorem call_rejects_bad_keywords
    (f : tool_function) (kwargs : pydict) (w : world) :
  (exists k, In k (Dict.keys kwargs) /\ ~ In k (snd (signature f)))
  \/ Dict.get "query" kwargs = None ->
  exists msg, call f kwargs w = Some (Raise (Exn TypeError msg), w).
Proof.
  intros Hbad. unfold handlers.call.
  destruct (signature f) as [fname parameters]. cbn in Hbad.
  destruct (find _ (Dict.keys kwargs)) as [k |] eqn:Hfind; [now eexists |].
  destruct Hbad as [(k & Hk & Hnot) | Hnone].
  - exfalso.
    pose proof (List.find_none _ _ Hfind k Hk) as Hdec. cbn in Hdec.
    apply negb_false_iff, bool_decide_eq_true in Hdec.
    apply Hnot. now apply list_elem_of_In.
  - rewrite Hnone. now eexists.
Qed.

End Dispatch.

(* ===================================================================== *)
(** ** The tool functions and the fetch helper together                   *)
(* ===================================================================== *)

Section Composition.

Variable environ : string -> option string.
Variable http_get : string -> pydict -> result response.
Variable py_repr : pyval -> string.
Variable open_client : result unit.

Abbreviation KEY := (WEATHER_API_KEY environ).
Abbreviation fetch := (fetch environ http_get py_repr open_client).
Abbreviation get_current_weather :=
  (get_current_weather environ http_get py_repr open_client).
Abbreviation get_weather_forecast :=
  (get_weather_forecast environ http_get py_repr open_client).
Abbreviation search_locations :=
  (search_locations environ http_get py_repr open_client).

(** X12: with a key configured, a client that opens and arguments that
    pass the validation, each tool function sends exactly one GET request,
    and its parameters are, in this order: for the current weather [q],
    [aqi] and [key]; for the forecast [q], [days], [aqi], [alerts] and
    [key]; for the search [q] and [key]. *)
Theorem tools_wire_parameters
    (query : pyval) (days : option Z) (aqi alerts : option bool) (w : world) :
  truthy query = true ->
  truthy KEY = true ->
  open_client = Ret tt ->
  (1 <= default 1 days <= 3)%Z ->
  let sends out url parameters :=
    exists r w',
      out = Some (r, w')
      /\ network_events w'
         = network_events w ++ [EvOpen; EvGet url parameters; EvClose] in
  sends (get_current_weather query (PBool <$> aqi) w)
    (base_url +:+ "current.json")
    [("q", query); ("aqi", PStr (flag_text aqi)); ("key", KEY)]
  /\ sends (get_weather_forecast query (PInt <$> days) (PBool <$> aqi)
              (PBool <$> alerts) w)
       (base_url +:+ "forecast.json")
       [("q", query); ("days", PInt (default 1%Z days));
        ("aqi", PStr (flag_text aqi)); ("alerts", PStr (flag_text alerts));
        ("key", KEY)]
  /\ sends (search_locations query w)
       (base_url +:+ "search.json")
       [("q", query); ("key", KEY)].
Proof.
  intros Hq Hkey Hopen Hdays sends. unfold sends. split; [| split].
  - rewrite (get_current_weather_run _ _ _ _ _ _ _ Hq), yes_no_flag.
    destruct (fetch_fresh_outcome environ http_get py_repr open_client "current.json"
                [("q", query); ("aqi", PStr (flag_text aqi))] w)
      as (w' & -> & Hnet).
    rewrite Hkey, Hopen in Hnet. eexists _, _. split; [reflexivity | exact Hnet].
  - rewrite (get_weather_forecast_run _ _ _ _ _ _ _ _ _ Hq Hdays), !yes_no_flag.
    destruct (fetch_fresh_outcome environ http_get py_repr open_client "forecast.json"
                [("q", query); ("days", PInt (default 1%Z days));
                 ("aqi", PStr (flag_text aqi));
                 ("alerts", PStr (flag_text alerts))] w)
      as (w' & -> & Hnet).
    rewrite Hkey, Hopen in Hnet. eexists _, _. split; [reflexivity | exact Hnet].
  - rewrite (search_locations_run _ _ _ _ _ _ Hq).
    destruct (fetch_fresh_outcome environ http_get py_repr open_client
                "search.json" [("q", query)] w)
      as (w' & -> & Hnet).
    rewrite Hkey, Hopen in Hnet |- *. cbn [through_client].
    destruct (fetch_outcome _ _); eexists _, _; (split; [reflexivity | exact Hnet]).
Qed.

(** X13: a tool function keeps no state between calls: called with the
    same arguments in any two worlds (whatever ran before), on a network
    that answers equal requests equally, it comes to the same outcome and
    the HTTP client does the same. *)
Theorem tools_are_stateless
    (query : pyval) (days aqi alerts : option pyval) (w1 w2 : world) :
  let same (run : M pyval) :=
    exists r w1' w2' events,
      run w1 = Some (r, w1') /\ run w2 = Some (r, w2')
      /\ network_events w1' = network_events w1 ++ events
      /\ network_events w2' = network_events w2 ++ events in
  same (get_current_weather query aqi)
  /\ same (get_weather_forecast query days aqi alerts)
  /\ same (search_locations query).
Proof.
  intros same. unfold same.
  assert (Hstill : forall (r : result pyval),
            exists r0 w1' w2' events,
              Some (r, w1) = Some (r0, w1') /\ Some (r, w2) = Some (r0, w2')
              /\ network_events w1' = network_events w1 ++ events
              /\ network_events w2' = network_events w2 ++ events).
  { intros r. exists r, w1, w2, []. now rewrite !app_nil_r. }
  assert (Hfetch : forall endpoint d,
            exists r w1' w2' events,
              fetch endpoint (length (heap w1)) (with_dict w1 d) = Some (r, w1')
              /\ fetch endpoint (length (heap w2)) (with_dict w2 d) = Some (r, w2')
              /\ network_events w1' = network_events w1 ++ events
              /\ network_events w2' = network_events w2 ++ events).
  { intros endpoint d.
    destruct (fetch_fresh_outcome environ http_get py_repr open_client endpoint d w1)
      as (w1' & -> & H1).
    destruct (fetch_fresh_outcome environ http_get py_repr open_client endpoint d w2)
      as (w2' & -> & H2).
    eexists _, w1', w2', _. split; [reflexivity |]. split; [reflexivity |].
    split; [exact H1 | exact H2]. }
  destruct (truthy query) eqn:Hq.
  - split; [| split].
    + rewrite !(get_current_weather_run _ _ _ _ _ _ _ Hq). apply Hfetch.
    + rewrite !(get_weather_forecast_checked _ _ _ _ _ _ _ _ _ Hq).
      destruct (days_outside (default (PInt 1) days)) as [[|] | e];
        [apply Hstill | apply Hfetch | apply Hstill].
    + rewrite !(search_locations_run _ _ _ _ _ _ Hq).
      destruct (Hfetch "search.json" [("q", query)])
        as (r & w1' & w2' & events & -> & -> & H1 & H2).
      destruct r; eexists _, w1', w2', events;
        (split; [reflexivity |]; split; [reflexivity |]; now split).
  - unfold handlers.get_current_weather, handlers.get_weather_forecast,
      handlers.search_locations.
    rewrite Hq. cbn. repeat split; apply Hstill.
Qed.

End Composition.

(* ===================================================================== *)
(** ** Dates: what strptime reads                                         *)
(* ===================================================================== *)

Module StrptimeFacts.

Import strptime.

#[local] Open Scope Z_scope.

(** Properties of the integers of a range, case by case. *)
Lemma Z_range_cases (P : Z -> Prop) (lo : Z) (n : nat) :
  Forall P (map (fun i => lo + Z.of_nat i) (seq 0 n)) ->
  forall z, lo <= z < lo + Z.of_nat n -> P z.
Proof.
  intros Hall z Hz.
  rewrite List.Forall_forall in Hall. apply Hall.
  apply List.in_map_iff. exists (Z.to_nat (z - lo)).
  split; [lia |]. apply List.in_seq. lia.
Qed.

Ltac by_cases z lo n :=
  pattern z;
  match goal with
  | |- ?F z => refine (Z_range_cases F lo n _ z _)
  end; [| lia];
  cbn [seq map]; repeat (apply List.Forall_cons); try apply List.Forall_nil;
  cbv beta.

Lemma digit_of_char (n : Z) : 0 <= n <= 9 -> digit (digit_char n) = Some n.
Proof. intros Hn. by_cases n 0 10%nat; reflexivity. Qed.

Lemma char_of_digit (c : ascii) (n : Z) :
  digit c = Some n -> c = digit_char n /\ 0 <= n <= 9.
Proof.
  destruct c as [[] [] [] [] [] [] [] []]; intros H; vm_compute in H;
    first [discriminate H | injection H as <-; split; [reflexivity | lia]].
Qed.

Lemma append_empty_l (s : string) : EmptyString +:+ s = s.
Proof. reflexivity. Qed.

Lemma digits_of_year (y : Z) :
  0 <= y <= 9999 ->
  1000 * (y / 1000) + 100 * (y / 100 mod 10)
  + 10 * (y mod 100 / 10) + y mod 100 mod 10 = y
  /\ 0 <= y / 1000 <= 9
  /\ 0 <= y / 100 mod 10 <= 9
  /\ 0 <= y mod 100 / 10 <= 9
  /\ 0 <= y mod 100 mod 10 <= 9.
Proof. intros Hy. repeat split; Z.to_euclidean_division_equations; lia. Qed.

Lemma year_of_digits (a b c d : Z) :
  0 <= a <= 9 -> 0 <= b <= 9 -> 0 <= c <= 9 -> 0 <= d <= 9 ->
  let y := 1000 * a + 100 * b + 10 * c + d in
  0 <= y <= 9999
  /\ y / 1000 = a /\ y / 100 mod 10 = b
  /\ y mod 100 / 10 = c /\ y mod 100 mod 10 = d.
Proof. intros Ha Hb Hc Hd y. subst y. repeat split; Z.to_euclidean_division_equations; lia. Qed.

Lemma pad2_of_digits (a b : Z) :
  0 <= a <= 9 -> 0 <= b <= 9 ->
  pad2 (10 * a + b) = String (digit_char a) (digit1 b).
Proof.
  intros Ha Hb. unfold pad2.
  replace ((10 * a + b) / 10) with a by (Z.to_euclidean_division_equations; lia).
  replace ((10 * a + b) mod 10) with b by (Z.to_euclidean_division_equations; lia).
  reflexivity.
Qed.

(** The year: four digits are read as the number they write. *)
Lemma match_Y_pad4 (y : Z) (rest : string) :
  0 <= y <= 9999 -> match_Y (pad4 y +:+ rest) = Some (y, rest).
Proof.
  intros Hy. destruct (digits_of_year y Hy) as (Hsum & Ha & Hb & Hc & Hd).
  unfold pad4, pad2, digit1. rewrite !StringFacts.append_cons, append_empty_l.
  unfold match_Y. rewrite !digit_of_char by assumption.
  now rewrite Hsum.
Qed.

Lemma match_Y_written (s rest : string) (y : Z) :
  match_Y s = Some (y, rest) -> s = pad4 y +:+ rest /\ 0 <= y <= 9999.
Proof.
  unfold match_Y.
  destruct s as [| a [| b [| c [| d s]]]]; try discriminate.
  destruct (digit a) as [a' |] eqn:Ea; [| discriminate].
  destruct (digit b) as [b' |] eqn:Eb; [| discriminate].
  destruct (digit c) as [c' |] eqn:Ec; [| discriminate].
  destruct (digit d) as [d' |] eqn:Ed; [| discriminate].
  intros [= <- <-].
  apply char_of_digit in Ea, Eb, Ec, Ed.
  destruct Ea as [-> Ha], Eb as [-> Hb], Ec as [-> Hc], Ed as [-> Hd].
  destruct (year_of_digits a' b' c' d' Ha Hb Hc Hd) as (Hy & E1 & E2 & E3 & E4).
  split; [| exact Hy].
  unfold pad4, pad2, digit1. rewrite E1, E2, E3, E4.
  now rewrite !StringFacts.append_cons, append_empty_l.
Qed.

Lemma dash_cons (s : string) : "-" +:+ s = String "-" s.
Proof. reflexivity. Qed.

(** A month written in one of its forms is read as that month. *)
Lemma month_written {B : Type} (k : Z -> string -> option B)
    (m : Z) (mf rest : string) :
  1 <= m <= 12 ->
  In mf (month_forms m) ->
  first_match (then_dash k) (match_m (mf +:+ String "-" rest)) = k m rest.
Proof.
  intros Hm. revert mf. by_cases m 1 12%nat;
    (intros mf Hmf; vm_compute in Hmf;
     repeat (destruct Hmf as [<- | Hmf]); try contradiction;
     vm_compute; try destruct (k _ _); reflexivity).
Qed.

(** Two digits that are not a month from 01 to 12 do not match. *)
Lemma month_refused {B : Type} (k : Z -> string -> option B) (m : Z) (rest : string) :
  0 <= m <= 99 ->
  ~ 1 <= m <= 12 ->
  first_match (then_dash k) (match_m (pad2 m +:+ String "-" rest)) = None.
Proof.
  intros Hm. by_cases m 0 100%nat;
    (intros Hnot; first [exfalso; apply Hnot; lia | vm_compute; reflexivity]).
Qed.

(** A day written in one of its forms, at the end of the string, is read as
    that day. *)
Lemma day_written {B : Type} (f : Z -> string -> B) (d : Z) (df : string) :
  1 <= d <= 31 ->
  In df (day_forms d) ->
  first_match (found f) (match_d df) = Some (f d EmptyString).
Proof.
  intros Hd. revert df. by_cases d 1 31%nat;
    (intros df Hdf; vm_compute in Hdf;
     repeat (destruct Hdf as [<- | Hdf]); try contradiction;
     vm_compute; reflexivity).
Qed.

(** Two digits at the end of the string: 00 does not match, and of a
    number above 31 only the first digit is read. *)
Lemma day_pad2 {B : Type} (f : Z -> string -> B) (d : Z) :
  0 <= d <= 99 ->
  first_match (found f) (match_d (pad2 d))
  = if d =? 0 then None
    else if d <=? 31 then Some (f d EmptyString)
    else Some (f (d / 10) (digit1 (d mod 10))).
Proof. intros Hd. by_cases d 0 100%nat; vm_compute; reflexivity. Qed.

Lemma first_match_found {A B : Type} (k : A -> option B) (l : list A) (b : B) :
  first_match k l = Some b -> exists c, In c l /\ k c = Some b.
Proof.
  induction l as [| c l IH]; cbn; [discriminate |].
  destruct (k c) eqn:Hc.
  - intros [= <-]. exists c. split; [now left | exact Hc].
  - intros H. destruct (IH H) as (c' & Hin & Hk). exists c'. split; [now right | exact Hk].
Qed.

Lemma digit_in_written (lo hi : Z) (c : ascii) (n : Z) :
  digit_in lo hi c = Some n -> c = digit_char n /\ lo <= n <= hi /\ 0 <= n <= 9.
Proof.
  unfold digit_in. destruct (digit c) as [n' |] eqn:Hc; [| discriminate].
  destruct (Z.leb_spec lo n'), (Z.leb_spec n' hi); cbn; try discriminate.
  intros [= <-]. destruct (char_of_digit _ _ Hc). repeat split; (assumption || lia).
Qed.

Lemma two_digits_written (lo1 hi1 lo2 hi2 : Z) (s rest : string) (v : Z) :
  In (v, rest) (two_digits lo1 hi1 lo2 hi2 s) ->
  exists a b,
    s = String (digit_char a) (String (digit_char b) rest)
    /\ v = 10 * a + b
    /\ lo1 <= a <= hi1 /\ lo2 <= b <= hi2
    /\ 0 <= a <= 9 /\ 0 <= b <= 9.
Proof.
  unfold two_digits. destruct s as [| a [| b s]]; try contradiction.
  destruct (digit_in lo1 hi1 a) as [a' |] eqn:Ha; [| contradiction].
  destruct (digit_in lo2 hi2 b) as [b' |] eqn:Hb; [| contradiction].
  intros [[= <- <-] | []].
  apply digit_in_written in Ha, Hb.
  destruct Ha as (-> & ? & ?), Hb as (-> & ? & ?).
  exists a', b'. now repeat split.
Qed.

Lemma one_digit_written (lo hi : Z) (s rest : string) (v : Z) :
  In (v, rest) (one_digit lo hi s) ->
  s = String (digit_char v) rest /\ lo <= v <= hi /\ 0 <= v <= 9.
Proof.
  unfold one_digit. destruct s as [| a s]; [contradiction |].
  destruct (digit_in lo hi a) as [a' |] eqn:Ha; [| contradiction].
  intros [[= <- <-] | []].
  apply digit_in_written in Ha. destruct Ha as (-> & ? & ?). now repeat split.
Qed.

Lemma small_forms (v : Z) :
  1 <= v <= 9 ->
  In (digit1 v) (month_forms v)
  /\ In (digit1 v) (day_forms v)
  /\ In (" " +:+ digit1 v) (day_forms v).
Proof.
  intros Hv. unfold month_forms, day_forms.
  destruct (Z.ltb_spec v 10); [| lia]. cbn. tauto.
Qed.

(** What the month group matches is a month from 1 to 12 in one of its
    forms. *)
Lemma match_m_written (s2 s3 : string) (m : Z) :
  In (m, s3) (match_m s2) ->
  1 <= m <= 12 /\ exists mf, In mf (month_forms m) /\ s2 = mf +:+ s3.
Proof.
  unfold match_m. rewrite !in_app_iff.
  intros [H | [H | H]].
  - apply two_digits_written in H.
    destruct H as (a & b & -> & -> & Ha & Hb & Ha' & Hb').
    split; [lia |]. exists (pad2 (10 * a + b)). split; [now left |].
    now rewrite pad2_of_digits by assumption.
  - apply two_digits_written in H.
    destruct H as (a & b & -> & -> & Ha & Hb & Ha' & Hb').
    split; [lia |]. exists (pad2 (10 * a + b)). split; [now left |].
    now rewrite pad2_of_digits by assumption.
  - apply one_digit_written in H. destruct H as (-> & Hv & _).
    split; [lia |]. exists (digit1 m). split; [| reflexivity].
    destruct (small_forms m Hv) as (Hs & _). exact Hs.
Qed.

(** What the day group matches is a day from 1 to 31 in one of its forms. *)
Lemma match_d_written (s4 s5 : string) (d : Z) :
  In (d, s5) (match_d s4) ->
  1 <= d <= 31 /\ exists df, In df (day_forms d) /\ s4 = df +:+ s5.
Proof.
  unfold match_d. rewrite !in_app_iff.
  intros [H | [H | [H | [H | H]]]].
  1-3: apply two_digits_written in H;
       destruct H as (a & b & -> & -> & Ha & Hb & Ha' & Hb');
       (split; [lia |]); exists (pad2 (10 * a + b)); (split; [now left |]);
       now rewrite pad2_of_digits by assumption.
  - apply one_digit_written in H. destruct H as (-> & Hv & _).
    split; [lia |]. exists (digit1 d). split; [| reflexivity].
    destruct (small_forms d Hv) as (_ & Hs & _). exact Hs.
  - assert (Hspace : exists s, s4 = String " " s /\ In (d, s5) (one_digit 1 9 s)).
    { destruct s4 as [| c s]; [contradiction |].
      destruct c as [[] [] [] [] [] [] [] []]; try (exfalso; exact H).
      exists s. split; [reflexivity | exact H]. }
    destruct Hspace as (s & -> & H').
    apply one_digit_written in H'. destruct H' as (-> & Hv & _).
    split; [lia |]. exists (" " +:+ digit1 d). split; [| reflexivity].
    destruct (small_forms d Hv) as (_ & _ & Hs). exact Hs.
Qed.

Lemma match_dash_written (s rest : string) :
  match_dash s = Some rest -> s = String "-" rest.
Proof.
  destruct s as [| c s]; [discriminate |].
  destruct c as [[] [] [] [] [] [] [] []]; try discriminate.
  now intros [= <-].
Qed.

(** What the pattern matches: a year, a month and a day in their forms,
    separated by dashes, before what is left over. *)
Lemma regex_match_written (s rest : string) (y m d : Z) :
  regex_match s = Some (y, m, d, rest) ->
  0 <= y <= 9999 /\ 1 <= m <= 12 /\ 1 <= d <= 31
  /\ exists mf df,
       In mf (month_forms m) /\ In df (day_forms d)
       /\ s = pad4 y +:+ "-" +:+ mf +:+ "-" +:+ df +:+ rest.
Proof.
  unfold regex_match.
  destruct (match_Y s) as [[y0 s1] |] eqn:HY; [| discriminate].
  destruct (match_Y_written _ _ _ HY) as (-> & Hy).
  destruct (match_dash s1) as [s2 |] eqn:H1; [| discriminate].
  apply match_dash_written in H1. subst s1.
  intros H. apply first_match_found in H. destruct H as ([m0 s3] & Hm & H).
  destruct (match_m_written _ _ _ Hm) as (Hm0 & mf & Hmf & ->).
  destruct (match_dash s3) as [s4 |] eqn:H3; [| discriminate].
  apply match_dash_written in H3. subst s3.
  apply first_match_found in H. destruct H as ([d0 s5] & Hd & [= <- <- <- <-]).
  destruct (match_d_written _ _ _ Hd) as (Hd0 & df & Hdf & ->).
  split; [lia |]. split; [lia |]. split; [lia |].
  exists mf, df. split; [exact Hmf |]. split; [exact Hdf |].
  now rewrite !dash_cons.
Qed.

(** A valid date in one of its writings is read as that date. *)
Lemma parse_accepted (y m d : Z) (mf df : string) :
  valid_date y m d ->
  In mf (month_forms m) ->
  In df (day_forms d) ->
  parse (pad4 y +:+ "-" +:+ mf +:+ "-" +:+ df) = inl (Datetime y m d).
Proof.
  intros (Hy & Hm & Hd) Hmf Hdf.
  assert (Hd31 : 1 <= d <= 31).
  { split; [lia |]. unfold days_in_month in Hd.
    destruct (m =? 2), (is_leap y), ((m =? 4) || (m =? 6) || (m =? 9) || (m =? 11));
      lia. }
  assert (Hmatch : regex_match (pad4 y +:+ "-" +:+ mf +:+ "-" +:+ df)
                   = Some (y, m, d, EmptyString)).
  { unfold regex_match. rewrite match_Y_pad4 by lia.
    rewrite !dash_cons. cbn [match_dash].
    change (first_match
              (then_dash (fun m0 s4 =>
                 first_match (found (fun d0 s5 => (y, m0, d0, s5))) (match_d s4)))
              (match_m (mf +:+ String "-" df))
            = Some (y, m, d, EmptyString)).
    rewrite (month_written _ m mf df Hm Hmf).
    exact (day_written (fun d0 s5 => (y, m, d0, s5)) d df Hd31 Hdf). }
  unfold parse. rewrite Hmatch.
  destruct (Z.ltb_spec y 1); [lia |].
  destruct (Z.leb_spec d (days_in_month y m)); [reflexivity | lia].
Qed.

(** What is read as a date is a valid date in one of its writings. *)
Lemma parse_written (s : string) (dt : datetime) :
  parse s = inl dt ->
  valid_date (year dt) (month dt) (day dt)
  /\ exists mf df,
       In mf (month_forms (month dt)) /\ In df (day_forms (day dt))
       /\ s = pad4 (year dt) +:+ "-" +:+ mf +:+ "-" +:+ df.
Proof.
  unfold parse.
  destruct (regex_match s) as [[[[y m] d] rest] |] eqn:Hmatch; [| discriminate].
  destruct rest; [| discriminate].
  destruct (Z.ltb_spec y 1); [discriminate |].
  destruct (Z.leb_spec d (days_in_month y m)); [| discriminate].
  intros [= <-]. cbn.
  destruct (regex_match_written _ _ _ _ _ Hmatch)
    as (Hy & Hm & Hd & mf & df & Hmf & Hdf & ->).
  split; [unfold valid_date; lia |].
  exists mf, df. rewrite StringFacts.append_empty_r.
  split; [exact Hmf |]. split; [exact Hdf | reflexivity].
Qed.

(** A date written with four, two and two digits is read if and only if
    it is a valid date. *)
Lemma parse_iso (y m d : Z) :
  0 <= y <= 9999 -> 0 <= m <= 99 -> 0 <= d <= 99 ->
  (valid_date y m d /\ parse (iso_date y m d) = inl (Datetime y m d))
  \/ (~ valid_date y m d /\ exists why, parse (iso_date y m d) = inr why).
Proof.
  intros Hy Hm Hd.
  assert (Hdim : 28 <= days_in_month y m <= 31).
  { unfold days_in_month.
    destruct (m =? 2), (is_leap y), ((m =? 4) || (m =? 6) || (m =? 9) || (m =? 11));
      lia. }
  assert (Hdec : valid_date y m d \/ ~ valid_date y m d)
    by (unfold valid_date; lia).
  destruct Hdec as [Hvalid | Hnot].
  { left. split; [exact Hvalid |].
    apply parse_accepted; [exact Hvalid | now left | now left]. }
  right. split; [exact Hnot |].
  unfold parse, iso_date, regex_match. rewrite match_Y_pad4 by lia.
  rewrite !dash_cons. cbn [match_dash].
  change (exists why,
            match first_match
                    (then_dash (fun m0 s4 =>
                       first_match (found (fun d0 s5 => (y, m0, d0, s5)))
                         (match_d s4)))
                    (match_m (pad2 m +:+ String "-" (pad2 d)))
            with
            | Some (y0, m0, d0, rest) =>
                match rest with
                | EmptyString =>
                    if y0 <? 1 then inr (YearOutOfRange y0)
                    else if d0 <=? days_in_month y0 m0
                         then inl (Datetime y0 m0 d0)
                         else inr DayOutOfRange
                | String _ _ => inr (Unconverted rest)
                end
            | None => inr NoMatch
            end = inr why).
  assert (Hmonth : 1 <= m <= 12 \/ ~ 1 <= m <= 12) by lia.
  destruct Hmonth as [Hm12 | Hm12].
  2: { rewrite (month_refused _ m (pad2 d) Hm Hm12). now eexists. }
  rewrite (month_written _ m (pad2 m) (pad2 d) Hm12) by now left.
  rewrite (day_pad2 _ d Hd).
  destruct (Z.eqb_spec d 0); [now eexists |].
  destruct (Z.leb_spec d 31); [| now eexists].
  destruct (Z.ltb_spec y 1); [now eexists |].
  destruct (Z.leb_spec d (days_in_month y m)); [| now eexists].
  exfalso. apply Hnot. unfold valid_date. lia.
Qed.

End StrptimeFacts.

(* ===================================================================== *)
(** ** validate_date                                                      *)
(* ===================================================================== *)

Section ValidateDate.

Variable py_repr : pyval -> string.

Abbreviation validate_date := (validate_date py_repr).

(** [validate_date] on a string of ASCII characters: nothing happens but
    the reading of the date. *)
Lemma validate_date_run (s : string) (w : world) :
  strptime.is_ascii s = true ->
  validate_date (PStr s) w
  = Some (match strptime.parse s with
          | inl _ => Ret PNone
          | inr _ => Raise (invalid_date s)
          end, w).
Proof.
  intros Hs. unfold handlers.validate_date, datetime_strptime, try_except.
  rewrite Hs. unfold mbind, M_bind.
  destruct (strptime.parse s); reflexivity.
Qed.

Lemma digit_char_is_ascii (n : Z) :
  (0 <= n <= 9)%Z -> (nat_of_ascii (digit_char n) <? 128)%nat = true.
Proof. intros Hn. StrptimeFacts.by_cases n 0%Z 10%nat; reflexivity. Qed.

Lemma iso_date_is_ascii (y m d : Z) :
  (0 <= y <= 9999)%Z -> (0 <= m <= 99)%Z -> (0 <= d <= 99)%Z ->
  strptime.is_ascii (iso_date y m d) = true.
Proof.
  intros Hy Hm Hd.
  destruct (StrptimeFacts.digits_of_year y Hy) as (_ & H1 & H2 & H3 & H4).
  unfold iso_date, pad4, pad2, digit1.
  repeat (rewrite StringFacts.append_cons || rewrite StrptimeFacts.append_empty_l).
  unfold strptime.is_ascii. cbn [list_ascii_of_string forallb].
  rewrite !digit_char_is_ascii
    by (assumption || (Z.to_euclidean_division_equations; lia)).
  reflexivity.
Qed.

(** X14: a date written with four digits, two digits and two digits passes
    [validate_date] exactly when it is a date of the calendar from the year
    1 on: month from 01 to 12, day from 01 to the length of that month in
    that year.  Otherwise the [ValueError] names the string and the
    expected form. *)
Theorem validate_date_iso (y m d : Z) (w : world) :
  (0 <= y <= 9999)%Z -> (0 <= m <= 99)%Z -> (0 <= d <= 99)%Z ->
  (valid_date y m d
   /\ validate_date (PStr (iso_date y m d)) w = Some (Ret PNone, w))
  \/ (~ valid_date y m d
      /\ validate_date (PStr (iso_date y m d)) w
         = Some (Raise (invalid_date (iso_date y m d)), w)).
Proof.
  intros Hy Hm Hd.
  rewrite (validate_date_run _ w (iso_date_is_ascii y m d Hy Hm Hd)).
  destruct (StrptimeFacts.parse_iso y m d Hy Hm Hd)
    as [[Hvalid ->] | [Hnot (why & ->)]]; [left | right]; now split.
Qed.

(** X15: the strings of ASCII characters that pass [validate_date] are exactly
    the valid dates written as a year of four digits, a dash, the month, a
    dash and the day, where month and day have two digits or, below 10,
    one digit (and the day may then have a space before it): more than the
    form YYYY-MM-DD that the message asks for.  Every other string raises
    the [ValueError] that names it. *)
Theorem validate_date_accepts_exactly (s : string) (w : world) :
  strptime.is_ascii s = true ->
  (accepted_date s /\ validate_date (PStr s) w = Some (Ret PNone, w))
  \/ (~ accepted_date s
      /\ validate_date (PStr s) w = Some (Raise (invalid_date s), w)).
Proof.
  intros Hs. rewrite (validate_date_run _ w Hs).
  destruct (strptime.parse s) as [dt | why] eqn:Hparse.
  - left. split; [| reflexivity].
    destruct (StrptimeFacts.parse_written _ _ Hparse)
      as (Hvalid & mf & df & Hmf & Hdf & ->).
    now exists (strptime.year dt), (strptime.month dt), (strptime.day dt), mf, df.
  - right. split; [| reflexivity].
    intros (y & m & d & mf & df & Hvalid & Hmf & Hdf & ->).
    rewrite (StrptimeFacts.parse_accepted _ _ _ _ _ Hvalid Hmf Hdf) in Hparse.
    discriminate.
Qed.

(** X16: the 29th of February passes [validate_date] in the leap years of the
    Gregorian calendar and in no other year. *)
Theorem validate_date_feb_29 (y : Z) (w : world) :
  (1 <= y <= 9999)%Z ->
  validate_date (PStr (iso_date y 2 29)) w = Some (Ret PNone, w)
  <-> (y mod 4 = 0 /\ (y mod 100 <> 0 \/ y mod 400 = 0))%Z.
Proof.
  intros Hy.
  assert (Hleap : strptime.is_leap y = true
                  <-> (y mod 4 = 0 /\ (y mod 100 <> 0 \/ y mod 400 = 0))%Z).
  { unfold strptime.is_leap.
    rewrite andb_true_iff, orb_true_iff, negb_true_iff, !Z.eqb_eq, Z.eqb_neq.
    tauto. }
  assert (Hvalid : valid_date y 2 29 <-> strptime.is_leap y = true).
  { unfold valid_date, strptime.days_in_month. cbn.
    destruct (strptime.is_leap y); split; intros; try discriminate; lia. }
  rewrite <- Hleap, <- Hvalid.
  rewrite (validate_date_run _ w (iso_date_is_ascii y 2 29 ltac:(lia) ltac:(lia) ltac:(lia))).
  destruct (StrptimeFacts.parse_iso y 2 29 ltac:(lia) ltac:(lia) ltac:(lia))
    as [[Hv ->] | [Hnot (why & ->)]].
  - tauto.
  - split; [discriminate | contradiction].
Qed.

(** An argument that is not a string makes [validate_date] fail with the
    [TypeError] of [strptime], which its [except ValueError] lets through:
    not with the message about the date. *)
Lemma validate_date_not_a_string (v : pyval) (w : world) :
  (forall s, v <> PStr s) ->
  exists msg, validate_date v w = Some (Raise (Exn TypeError msg), w).
Proof.
  intros Hv. destruct v; try (now eexists).
  now destruct (Hv s).
Qed.

End ValidateDate.

(* ===================================================================== *)
(** ** The further properties on examples                                 *)
(* ===================================================================== *)


(** A search that the upstream answers. *)
Lemma fetch_returns_only_on_200_witness :
  exists resp,
    Examples.answers Examples.tokyo_found (base_url +:+ "search.json")
      (Dict.set "key" (WEATHER_API_KEY Examples.environ_with_key) Examples.paris)
    = Ret resp
    /\ status_code resp = 200%Z.
Proof.
  destruct (fetch_returns_only_on_200 Examples.environ_with_key
              (Examples.answers Examples.tokyo_found) Examples.repr Examples.opens
              "search.json" 0 Examples.paris Examples.holding_paris
              _ _ eq_refl eq_refl)
    as (_ & resp & Hget & Hstatus & _).
  exists resp. now split.
Defined.

(** Two calls with the dictionary at reference 0. *)
Lemma fetch_again_same_parameters_witness :
  exists r2 w2,
    fetch Examples.environ_with_key (Examples.answers Examples.tokyo_found)
      Examples.repr Examples.opens "forecast.json" 0
      (World [[("q", PStr "Paris"); ("aqi", PStr "no"); ("key", PStr "s3cr3t")]]
         [EvFetch "current.json" 0 Examples.paris;
          EvOpen;
          EvGet "https://api.weatherapi.com/v1/current.json"
            [("q", PStr "Paris"); ("aqi", PStr "no"); ("key", PStr "s3cr3t")];
          EvClose])
    = Some (r2, w2)
    /\ heap w2 = [[("q", PStr "Paris"); ("aqi", PStr "no"); ("key", PStr "s3cr3t")]].
Proof.
  destruct (fetch_again_same_parameters Examples.environ_with_key
              (Examples.answers Examples.tokyo_found) Examples.repr Examples.opens
              "current.json" "forecast.json" 0 Examples.paris
              Examples.holding_paris
              (World [[("q", PStr "Paris"); ("aqi", PStr "no"); ("key", PStr "s3cr3t")]]
                 [EvFetch "current.json" 0 Examples.paris;
                  EvOpen;
                  EvGet "https://api.weatherapi.com/v1/current.json"
                    [("q", PStr "Paris"); ("aqi", PStr "no"); ("key", PStr "s3cr3t")];
                  EvClose])
              (Ret (PList [PDict [("id", PInt 1); ("name", PStr "Tokyo")]]))
              eq_refl eq_refl eq_refl)
    as (r2 & w2 & Hrun & Hheap & _).
  exists r2, w2. split; [exact Hrun | exact Hheap].
Defined.


(** A day count given as the string "2". *)
Lemma forecast_days_of_other_types_witness :
  exists msg,
    get_weather_forecast Examples.environ_with_key
      (Examples.answers Examples.tokyo_found) Examples.repr Examples.opens
      (PStr "Tokyo") (Some (PStr "2")) None None Examples.nothing
    = Some (Raise (Exn TypeError msg), Examples.nothing).
Proof.
  destruct (forecast_days_of_other_types Examples.environ_with_key
              (Examples.answers Examples.tokyo_found) Examples.repr Examples.opens
              (PStr "Tokyo") None None Examples.nothing eq_refl)
    as (Hother & _).
  apply Hother. reflexivity.
Defined.

(** A search that the upstream answers with one location. *)
Lemma tools_return_only_on_200_witness :
  exists locations,
    PDict [("items", PList [PDict [("id", PInt 1); ("name", PStr "Tokyo")]])]
    = PDict [("items", locations)]
    /\ exists sent resp,
         Examples.answers Examples.tokyo_found (base_url +:+ "search.json") sent
         = Ret resp
         /\ status_code resp = 200%Z
         /\ locations = data_of resp.
Proof.
  destruct (tools_return_only_on_200 Examples.environ_with_key
              (Examples.answers Examples.tokyo_found) Examples.repr Examples.opens
              (PStr "Tokyo") None None None Examples.nothing
              (World [[("q", PStr "Tokyo"); ("key", PStr "s3cr3t")]]
                 [EvFetch "search.json" 0 [("q", PStr "Tokyo")];
                  EvOpen;
                  EvGet "https://api.weatherapi.com/v1/search.json"
                    [("q", PStr "Tokyo"); ("key", PStr "s3cr3t")];
                  EvClose])
              (PDict [("items", PList [PDict [("id", PInt 1); ("name", PStr "Tokyo")]])]))
    as (_ & _ & Hsearch).
  destruct (Hsearch eq_refl)
    as (locations & Hv & _ & _ & sent & resp & Hget & _ & Hstatus & Hbody).
  exists locations. split; [exact Hv |].
  exists sent, resp. now repeat split.
Defined.

(** The flags given as the strings "no" and "false". *)
Lemma string_flags_are_sent_as_yes_witness :
  enters_fetch "current.json" [("q", PStr "Paris"); ("aqi", PStr "yes")]
    Examples.nothing
    (get_current_weather Examples.environ_with_key
       (Examples.answers Examples.tokyo_found) Examples.repr Examples.opens
       (PStr "Paris") (Some (PStr "no")) Examples.nothing).
Proof.
  destruct (string_flags_are_sent_as_yes Examples.environ_with_key
              (Examples.answers Examples.tokyo_found) Examples.repr Examples.opens
              (PStr "Paris") "no" "false" Examples.nothing eq_refl)
    as (Hcurrent & _); [discriminate | discriminate | exact Hcurrent].
Defined.

(** The tool named "get_weather", called for Tokyo. *)
Lemma dispatched_calls_request_forecast_or_search_witness :
  exists r w',
    call Examples.environ_with_key (Examples.answers Examples.tokyo_found)
      Examples.repr Examples.opens Fn_get_weather_forecast [("query", PStr "Tokyo")]
      Examples.nothing
    = Some (r, w').
Proof.
  destruct (dispatched_calls_request_forecast_or_search
              Examples.environ_with_key (Examples.answers Examples.tokyo_found)
              Examples.repr Examples.opens "get_weather" Fn_get_weather_forecast
              [("query", PStr "Tokyo")] Examples.nothing eq_refl)
    as (r & w' & Hrun & _).
  now exists r, w'.
Defined.

(** A search called with [q] in place of [query]. *)
Lemma call_rejects_bad_keywords_witness :
  exists msg,
    call Examples.environ_with_key (Examples.answers Examples.tokyo_found)
      Examples.repr Examples.opens
      Fn_search_locations [("q", PStr "Tokyo")] Examples.nothing
    = Some (Raise (Exn TypeError msg), Examples.nothing).
Proof.
  apply (call_rejects_bad_keywords Examples.environ_with_key
           (Examples.answers Examples.tokyo_found) Examples.repr Examples.opens
           Fn_search_locations [("q", PStr "Tokyo")] Examples.nothing).
  right. reflexivity.
Defined.

(** The 30th of February 2024. *)
Lemma validate_date_iso_witness :
  validate_date Examples.repr (PStr "2024-02-30") Examples.nothing
  = Some (Raise (Exn ValueError "Invalid date: 2024-02-30. Use YYYY-MM-DD."),
          Examples.nothing).
Proof.
  destruct (validate_date_iso Examples.repr 2024 2 30 Examples.nothing)
    as [[Hvalid _] | [_ Hrun]]; try lia.
  - exfalso. destruct Hvalid as (_ & _ & _ & Hday).
    vm_compute in Hday. now apply Hday.
  - exact Hrun.
Defined.

(** The 5th of January 2024, written without zeros. *)
Lemma validate_date_accepts_exactly_witness :
  validate_date Examples.repr (PStr "2024-1- 5") Examples.nothing
  = Some (Ret PNone, Examples.nothing).
Proof.
  destruct (validate_date_accepts_exactly Examples.repr "2024-1- 5"
              Examples.nothing eq_refl)
    as [[_ Hrun] | [Hnot _]]; [exact Hrun |].
  exfalso. apply Hnot. exists 2024%Z, 1%Z, 5%Z, "1", " 5".
  split; [unfold valid_date; vm_compute; intuition discriminate |].
  split; [right; left; reflexivity |].
  split; [right; right; left; reflexivity | reflexivity].
Defined.

(** The years 2024 and 1900. *)
Lemma validate_date_feb_29_witness :
  validate_date Examples.repr (PStr "2024-02-29") Examples.nothing
  = Some (Ret PNone, Examples.nothing)
  /\ validate_date Examples.repr (PStr "1900-02-29") Examples.nothing
     <> Some (Ret PNone, Examples.nothing).
Proof.
  split.
  - apply (validate_date_feb_29 Examples.repr 2024 Examples.nothing); [lia |].
    split; [reflexivity | left; discriminate].
  - intros Hrun.
    apply (validate_date_feb_29 Examples.repr 1900 Examples.nothing) in Hrun; [| lia].
    destruct Hrun as (_ & [H100 | H400]); [now apply H100 | discriminate H400].
Defined.

(** The forecast for Tokyo over two days with the alerts asked for. *)
Lemma tools_wire_parameters_witness :
  exists r w',
    get_weather_forecast Examples.environ_with_key
      (Examples.answers Examples.tokyo_found) Examples.repr Examples.opens
      (PStr "Tokyo") (Some (PInt 2)) None (Some (PBool true)) Examples.nothing
    = Some (r, w')
    /\ network_events w'
       = [EvOpen;
          EvGet "https://api.weatherapi.com/v1/forecast.json"
            [("q", PStr "Tokyo"); ("days", PInt 2); ("aqi", PStr "no");
             ("alerts", PStr "yes"); ("key", PStr "s3cr3t")];
          EvClose].
Proof.
  destruct (tools_wire_parameters Examples.environ_with_key
              (Examples.answers Examples.tokyo_found) Examples.repr Examples.opens
              (PStr "Tokyo") (Some 2%Z) None (Some true) Examples.nothing
              eq_refl eq_refl eq_refl)
    as (_ & Hforecast & _); [cbn; lia |].
  exact Hforecast.
Defined.
